(** * adp-connection-node: the two OAuth2 connection classes

    A shallow embedding of [ClientCredentialsConnection] and
    [AuthorizationCodeConnection]: the payload builders, the certificate
    step, the token response handler and the expiration computation,
    followed by the properties of the connection flow.

    The connection object ([this]) is an explicit state; what the code does
    to its collaborators ([debug], [readCerts], [new Post], the stored
    callback) is recorded, in order, in a log of events.  A JavaScript
    exception is the [Thrown] outcome.  Numbers are doubles and dates
    follow ECMAScript's time arithmetic in the host's time zone. *)

From Stdlib Require Import ZArith Lia List QArith Qround Qabs Qreduction.
From stdpp Require Import base gmap strings.
Import ListNotations.

Local Open Scope string_scope.
Local Open Scope list_scope.
Local Open Scope Z_scope.

(** ** JavaScript values that cross the connection *)

Module Js.

(** Values that are only stored, compared for truthiness or passed on. *)
Inductive jsval : Type :=
| JUndefined
| JNull
| JBool (b : bool)
| JNum (n : Z)
| JStr (s : string).

(** ToBoolean. *)
Definition truthy (v : jsval) : bool :=
  match v with
  | JUndefined | JNull => false
  | JBool b => b
  | JNum n => negb (n =? 0)
  | JStr s => negb (String.eqb s EmptyString)
  end.

(** An optional string property of the configuration: [None] is
    [undefined]. *)
Definition truthy_str (v : option string) : bool :=
  match v with
  | None => false
  | Some s => negb (String.eqb s EmptyString)
  end.

(** Number values: IEEE 754 doubles.  [Fin q] is the finite double of
    value [q], kept in lowest terms; the results of the operations are
    rounded to the nearest double, ties to even.  The sign of zero is not
    kept: the code never divides by a Number and never looks at it. *)
Inductive number : Type :=
| Fin (q : Q)
| PInf
| NInf
| NaN.

(** The double of an integer that a double holds exactly. *)
Definition Int (z : Z) : number := Fin (inject_Z z).

(** The 53-bit significand [m] and the exponent [ex] of the double nearest
    to [n / d], for [n] and [d] positive: [ex] is the exponent of the last
    place, not below that of the subnormals, and [m] is [n / d] in units
    of [2 ^ ex], rounded to nearest, ties to even. *)
Definition round_mantissa (n d : Z) : Z * Z :=
  let k := Z.log2 n - Z.log2 d in
  let above := if 0 <=? k then 2 ^ k * d <=? n else d <=? n * 2 ^ (- k) in
  let e := if above then k else k - 1 in
  let ex := Z.max (e - 52) (-1074) in
  let num := if ex <=? 0 then n * 2 ^ (- ex) else n in
  let den := if ex <=? 0 then d else d * 2 ^ ex in
  let fl := num / den in
  let m := match 2 * (num mod den) ?= den with
           | Lt => fl
           | Gt => fl + 1
           | Eq => if Z.even fl then fl else fl + 1
           end in
  (m, ex).

(** [m * 2 ^ ex] *)
Definition scaled (m ex : Z) : Q :=
  if 0 <=? ex then inject_Z (m * 2 ^ ex)
  else Qred (Qmake m (Z.to_pos (2 ^ (- ex)))).

(** The double nearest to [q]; beyond the largest double it is an
    infinity. *)
Definition round_double (q : Q) : number :=
  let r := Qred q in
  if Qnum r =? 0 then Fin 0
  else
    let '(m, ex) := round_mantissa (Z.abs (Qnum r)) (Zpos (Qden r)) in
    if 2 ^ 1024 <=? m * 2 ^ ex then (if Qnum r <? 0 then NInf else PInf)
    else Fin (if Qnum r <? 0 then Qopp (scaled m ex) else scaled m ex).


(** [𝔽(z)]: the Number for the integer [z]. *)
Definition of_Z (z : Z) : number := round_double (inject_Z z).

(** ToBoolean *)
Definition num_truthy (x : number) : bool :=
  match x with
  | Fin q => negb (Qnum q =? 0)
  | PInf | NInf => true
  | NaN => false
  end.

Definition num_neg (x : number) : number :=
  match x with
  | Fin q => Fin (Qopp q)
  | PInf => NInf
  | NInf => PInf
  | NaN => NaN
  end.

Definition num_add (x y : number) : number :=
  match x, y with
  | NaN, _ | _, NaN => NaN
  | PInf, NInf | NInf, PInf => NaN
  | PInf, _ | _, PInf => PInf
  | NInf, _ | _, NInf => NInf
  | Fin a, Fin b => round_double (a + b)
  end.

Definition num_sub (x y : number) : number := num_add x (num_neg y).

(** An infinity times a finite value. *)
Definition times_sign (inf : number) (q : Q) : number :=
  match Qnum q ?= 0 with
  | Eq => NaN
  | Gt => inf
  | Lt => num_neg inf
  end.

Definition num_mul (x y : number) : number :=
  match x, y with
  | NaN, _ | _, NaN => NaN
  | Fin a, Fin b => round_double (a * b)
  | Fin a, inf => times_sign inf a
  | inf, Fin b => times_sign inf b
  | PInf, PInf | NInf, NInf => PInf
  | PInf, NInf | NInf, PInf => NInf
  end.

(** [x / 1000] *)
Definition num_div_1000 (x : number) : number :=
  match x with
  | Fin a => round_double (a / inject_Z 1000)
  | PInf => PInf
  | NInf => NInf
  | NaN => NaN
  end.

(** [a || b] on numbers. *)
Definition num_or (x y : number) : number :=
  if num_truthy x then x else y.

(** A numeric property that may be missing: [None] is [undefined], and
    ToNumber(undefined) is NaN.  A missing property and NaN are both
    falsy, so [||] can be taken after the conversion. *)
Definition to_number (v : option number) : number :=
  match v with
  | Some x => x
  | None => NaN
  end.

(** ToIntegerOrInfinity on a finite value: the fraction is dropped. *)
Definition truncate (q : Q) : Z := Z.quot (Qnum q) (Zpos (Qden q)).

(** Errors the code can raise by itself. *)
Inductive jserror : Type :=
| TypeError
| ENOENT (path : string).

Inductive outcome (A : Type) : Type :=
| Done (a : A)
| Thrown (e : jserror).
Arguments Done {A} a.
Arguments Thrown {A} e.

End Js.
Export Js.

(** ** Date: the part of ECMAScript's time arithmetic the code uses *)

Module Date.

Definition msPerSecond : Z := 1000.
Definition msPerMinute : Z := 60000.
Definition msPerHour : Z := 3600000.
Definition msPerDay : Z := 86400000.
Definition maxTime : Z := 8640000000000000.

Definition Day (t : Z) : Z := t / msPerDay.
Definition HourFromTime (t : Z) : Z := (t / msPerHour) mod 24.
Definition MinFromTime (t : Z) : Z := (t / msPerMinute) mod 60.
Definition SecFromTime (t : Z) : Z := (t / msPerSecond) mod 60.
Definition msFromTime (t : Z) : Z := t mod msPerSecond.

(** The time value of a Date object: an integral number of milliseconds
    since the epoch, or NaN (an invalid date). *)
Inductive timevalue : Type :=
| Num (t : Z)
| Invalid.

(** The host's time zone, as ECMAScript's LocalTZA(t, isUTC): the offset of
    local time from UTC, in milliseconds, in force at the UTC time [t]
    ([isUTC = true]) or at the local time [t] ([isUTC = false]). *)
Definition zone : Type := Z -> bool -> Z.
Definition fixed (offset : Z) : zone := fun _ _ => offset.
Definition utc : zone := fixed 0.

(** MakeTime, MakeDate and TimeClip; sums and products are those of
    Numbers. *)

Definition MakeTime (hour min : Z) (sec : number) (ms : Z) : number :=
  match sec with
  | Fin q =>
      num_add
        (num_add
           (num_add (num_mul (of_Z hour) (of_Z msPerHour))
                    (num_mul (of_Z min) (of_Z msPerMinute)))
           (num_mul (of_Z (truncate q)) (of_Z msPerSecond)))
        (of_Z ms)
  | _ => NaN
  end.

Definition MakeDate (day : Z) (time : number) : number :=
  match time with
  | Fin _ =>
      match num_add (num_mul (of_Z day) (of_Z msPerDay)) time with
      | Fin tv => Fin tv
      | _ => NaN
      end
  | _ => NaN
  end.

Definition TimeClip (time : number) : timevalue :=
  match time with
  | Fin q => if Qle_bool (Qabs q) (inject_Z maxTime) then Num (truncate q) else Invalid
  | _ => Invalid
  end.

Section LocalTime.
Variable LocalTZA : zone.

(** LocalTime(t) = t + LocalTZA(t, true) and UTC(t) = t - LocalTZA(t, false):
    each takes the offset in force at its own argument. *)
Definition LocalTime (t : Z) : number := num_add (of_Z t) (of_Z (LocalTZA t true)).

Definition UTC (t : number) : number :=
  match t with
  | Fin q => num_sub t (of_Z (LocalTZA (Qfloor q) false))
  | _ => NaN
  end.

(** [date.getSeconds()] and [date.setSeconds(sec)]: the seconds of the
    local time, and the date whose local time has its seconds replaced by
    the integral part of [sec]. *)
Definition getSeconds (d : timevalue) : number :=
  match d with
  | Num t =>
      match LocalTime t with
      | Fin lt => of_Z (SecFromTime (Qfloor lt))
      | _ => NaN
      end
  | Invalid => NaN
  end.

Definition setSeconds (d : timevalue) (sec : number) : timevalue :=
  match d with
  | Num t =>
      match LocalTime t with
      | Fin q =>
          let lt := Qfloor q in
          TimeClip (UTC (MakeDate (Day lt)
                           (MakeTime (HourFromTime lt) (MinFromTime lt) sec (msFromTime lt))))
      | _ => Invalid
      end
  | Invalid => Invalid
  end.
End LocalTime.

(** [new Date()] when the clock reads [now], a time value. *)
Definition newDate (now : Z) : timevalue := Num now.

End Date.
Export Date.

(** ** Configuration, payloads and events shared by both classes *)

Module Core.

(** The [conn] argument of both constructors ([ADPAPIConnection]).  The
    four TLS properties are strings when configured; the others are only
    copied into the request. *)
Record ADPAPIConnection : Type := {
  granttype : jsval;
  tokenUrl : jsval;
  clientId : jsval;
  clientSecret : jsval;
  authorizationCode : jsval;
  callbackUrl : jsval;
  sslCertPath : option string;
  sslKeyPath : option string;
  sslCertString : option string;
  sslKeyString : option string
}.

(** TLS material in a payload: an inline string of the configuration, or
    the Buffer that [fs.readFileSync] returned. *)
Inductive material : Type :=
| Inline (s : string)
| Buffer (content : string).

(** [fs.readFileSync(path)] over the files present on disk. *)
Definition readFileSync (fs : gmap string string) (path : option string)
  : outcome material :=
  match path with
  | None => Thrown TypeError
  | Some p =>
      match fs !! p with
      | Some c => Done (Buffer c)
      | None => Thrown (ENOENT p)
      end
  end.

(** [inline || fs.readFileSync(path)]: the file is read only when the
    inline string is falsy. *)
Definition string_or_file (fs : gmap string string)
    (inline path : option string) : outcome material :=
  match inline with
  | Some s => if truthy_str (Some s) then Done (Inline s) else readFileSync fs path
  | None => readFileSync fs path
  end.

Record AgentOptions : Type := {
  ca : list material;
  key : material;
  cert : material
}.

Record Auth : Type := {
  user : jsval;
  pass : jsval;
  sendImmediately : bool
}.

Record Payload : Type := {
  agentOptions : AgentOptions;
  strictSSL : bool;
  auth : option Auth;
  form : gmap string jsval
}.

Record Options : Type := {
  requestDesc : string;
  url : jsval;
  payload : Payload
}.

(** The [agentOptions] literal, its properties evaluated in source order:
    ca, key, cert. *)
Definition buildAgentOptions (fs : gmap string string) (conn : ADPAPIConnection)
  : outcome AgentOptions :=
  match string_or_file fs (sslCertString conn) (sslCertPath conn) with
  | Thrown e => Thrown e
  | Done c1 =>
      match string_or_file fs (sslKeyString conn) (sslKeyPath conn) with
      | Thrown e => Thrown e
      | Done k =>
          match string_or_file fs (sslCertString conn) (sslCertPath conn) with
          | Thrown e => Thrown e
          | Done c2 => Done {| ca := [c1]; key := k; cert := c2 |}
          end
      end
  end.

(** The token object the transport hands to [parseTokenResponse].
    [expires_in] is [None] when the response omits it and [Some x] when it
    is the Number [x], in seconds; [others] are the remaining properties,
    which the connection never reads. *)
Record Token : Type := {
  access_token : jsval;
  expires_in : option number;
  others : list (string * jsval)
}.

(** [!token || !token.access_token] *)
Definition no_access_token (token : option Token) : bool :=
  match token with
  | None => true
  | Some t => negb (truthy (access_token t))
  end.

(** The error object of the transport: [err.response] may be missing. *)
Record Response : Type := { body : jsval }.
Record TransportError : Type := {
  statusCode : jsval;
  response : option Response
}.

(** The literal handed to [new ConnectionException(...)]. *)
Record ErrObject : Type := {
  eo_statusCode : jsval;
  oauthResponse : jsval
}.

(** First and second argument of the completion callback. *)
Inductive cberror : Type :=
| NoError
| ConnectionException (errObject : ErrObject)
| LoaderError (err : jsval).

Inductive cbdata : Type :=
| TokenArg (token : option Token)
| CertsArg (certs : option (gmap string string)).

(** Messages passed to [debug]; the structured form stands for the string. *)
Inductive debugmsg : Type :=
| DbgInitializing (granttype : jsval)
| DbgInitializingRefresh (granttype : jsval)
| DbgTokenError (err : TransportError)
| DbgNoToken.

(** The function handed to [readCerts]: [readCertsCb] bound to the
    connection, with the [refreshToken] variable of the [getCerts] call it
    was created in (the client-credentials one captures no variable). *)
Inductive loader_callback : Type :=
| ClientCredentialsCb
| AuthorizationCodeCb (refreshToken : jsval).

(** What the connection does to the outside, in order. *)
Inductive event : Type :=
| EvDebug (msg : debugmsg)
| EvReadCerts (certs : list (option string)) (callback : loader_callback)
| EvPost (options : Options)
| EvCallback (f : nat) (err : cberror) (data : cbdata).

(** The connection object and the log of events so far. *)
Record world (S : Type) : Type := {
  this : S;
  log : list event
}.
Arguments this {S} w.
Arguments log {S} w.

(** State and exception monad of a method body. *)
Definition M (S A : Type) : Type := world S -> outcome A * world S.

Definition ret {S A} (a : A) : M S A := fun w => (Done a, w).
Definition throw {S A} (e : jserror) : M S A := fun w => (Thrown e, w).
Definition bind {S A B} (m : M S A) (k : A -> M S B) : M S B :=
  fun w =>
    match m w with
    | (Done a, w') => k a w'
    | (Thrown e, w') => (Thrown e, w')
    end.
Definition emit {S} (e : event) : M S unit :=
  fun w => (Done tt, {| this := this w; log := log w ++ [e] |}).
Definition get {S} : M S S := fun w => (Done (this w), w).
Definition modify {S} (f : S -> S) : M S unit :=
  fun w => (Done tt, {| this := f (this w); log := log w |}).
Definition lift {S A} (o : outcome A) : M S A := fun w => (o, w).

(** [f(err, data)] where [f] is a property read from the object: calling
    a value that is not a function raises a TypeError. *)
Definition call {S} (f : option nat) (err : cberror) (data : cbdata) : M S unit :=
  match f with
  | Some id => emit (EvCallback id err data)
  | None => throw TypeError
  end.

(** The requests, callbacks and loader calls in a log. *)
Definition posted (l : list event) : list Options :=
  omap (fun e => match e with EvPost o => Some o | _ => None end) l.
Definition loaded (l : list event) : list (list (option string)) :=
  omap (fun e => match e with EvReadCerts p _ => Some p | _ => None end) l.
(** The callback of the latest [readCerts] call in a log, if any. *)
Definition pending_loader_callback (l : list event) : option loader_callback :=
  last (omap (fun e => match e with EvReadCerts _ k => Some k | _ => None end) l).
Definition called (l : list event) : list (nat * cberror * cbdata) :=
  omap (fun e => match e with EvCallback f x d => Some (f, x, d) | _ => None end) l.

End Core.
Export Core.

Declare Scope conn_scope.
Notation "'let*' x ':=' m 'in' k" := (bind m (fun x => k))
  (at level 10, x name, m at level 100, k at level 200) : conn_scope.
Notation "m ';;' k" := (bind m (fun _ => k))
  (at level 100, k at level 200, right associativity) : conn_scope.
Local Open Scope conn_scope.

(** ** ClientCredentialsConnection *)

Module ClientCredentialsConnection.

(** The properties the methods put on [this].  [cb] is [Some f] when the
    stored value is a function (number [f] in the log) and [None] when the
    property is missing or holds something that is not a function. *)
Record Instance : Type := {
  this_granttype : jsval;
  cb : option nat;
  certs : option (gmap string string);
  tokenExpirationMs : option number;
  tokenExpiration : option Date.timevalue
}.

Definition set_cb (f : option nat) (o : Instance) : Instance :=
  {| this_granttype := this_granttype o; cb := f; certs := certs o;
     tokenExpirationMs := tokenExpirationMs o; tokenExpiration := tokenExpiration o |}.
Definition set_certs (c : option (gmap string string)) (o : Instance) : Instance :=
  {| this_granttype := this_granttype o; cb := cb o; certs := c;
     tokenExpirationMs := tokenExpirationMs o; tokenExpiration := tokenExpiration o |}.
Definition set_tokenExpirationMs (x : number) (o : Instance) : Instance :=
  {| this_granttype := this_granttype o; cb := cb o; certs := certs o;
     tokenExpirationMs := Some x; tokenExpiration := tokenExpiration o |}.
Definition set_tokenExpiration (d : Date.timevalue) (o : Instance) : Instance :=
  {| this_granttype := this_granttype o; cb := cb o; certs := certs o;
     tokenExpirationMs := tokenExpirationMs o; tokenExpiration := Some d |}.

(** [new ClientCredentialsConnection(conn)] *)
Definition construct (conn : ADPAPIConnection) : Instance :=
  {| this_granttype := granttype conn; cb := None; certs := None;
     tokenExpirationMs := None; tokenExpiration := None |}.

Section Methods.
Variable conn : ADPAPIConnection.
(** Files on disk, [config.connect.defaultexpiration], and the host's
    time zone. *)
Variable fs : gmap string string.
Variable defaultexpiration : Z.
Variable tza : Date.zone.

Definition buildTokenRequestBody : M Instance Payload :=
  let* o := get in
  let* a := lift (buildAgentOptions fs conn) in
  ret {| agentOptions := a;
         strictSSL := false;
         auth := Some {| user := clientId conn; pass := clientSecret conn;
                         sendImmediately := true |};
         form := {[ "grant_type" := this_granttype o ]} |}.

Definition getAccessToken : M Instance unit :=
  let* p := buildTokenRequestBody in
  emit (EvPost {| requestDesc := "Access Token Request";
                  url := tokenUrl conn;
                  payload := p |}).

(** The callback handed to [readCerts]. *)
Definition readCertsCb (err : jsval) (certs : option (gmap string string))
  : M Instance unit :=
  if truthy err then
    let* o := get in
    call (cb o) (LoaderError err) (CertsArg certs)
  else
    modify (set_certs certs) ;;
    getAccessToken.

Definition getCerts : M Instance unit :=
  let certPaths := List.filter truthy_str [sslCertPath conn; sslKeyPath conn] in
  if (0 <? Z.of_nat (length certPaths)) then
    emit (EvReadCerts certPaths ClientCredentialsCb)
  else
    getAccessToken.

Definition connect (f : option nat) : M Instance unit :=
  let* o := get in
  emit (EvDebug (DbgInitializing (this_granttype o))) ;;
  modify (set_cb f) ;;
  getCerts.

(** [now] is what the clock reads at [new Date()]. *)
Definition setTokenExpiration (now : Z) (token : Token) : M Instance unit :=
  let ms := num_mul (num_or (to_number (expires_in token)) (of_Z defaultexpiration))
                    (Int 1000) in
  modify (set_tokenExpirationMs ms) ;;
  let date := Date.newDate now in
  let* o := get in
  let date := Date.setSeconds tza date
                (num_add (Date.getSeconds tza date)
                         (num_div_1000 (default NaN (tokenExpirationMs o)))) in
  modify (set_tokenExpiration date).

Definition parseTokenResponse (now : Z) (err : option TransportError)
    (token : option Token) : M Instance unit :=
  let* ex :=
    match err with
    | Some e =>
        emit (EvDebug (DbgTokenError e)) ;;
        let response := default {| body := JUndefined |} (response e) in
        ret (ConnectionException {| eo_statusCode := statusCode e;
                                    oauthResponse := body response |})
    | None => ret NoError
    end in
  (* if (!token || !token.access_token) ... else ... *)
  match token with
  | None => emit (EvDebug DbgNoToken)
  | Some t =>
      if negb (truthy (access_token t)) then emit (EvDebug DbgNoToken)
      else setTokenExpiration now t
  end ;;
  let* o := get in
  (* if (typeof this.cb === 'function') *)
  match cb o with
  | Some f =>
      emit (EvCallback f ex (TokenArg token)) ;;
      modify (set_cb None)
  | None => ret tt
  end.
End Methods.

End ClientCredentialsConnection.

(** ** AuthorizationCodeConnection *)

Module AuthorizationCodeConnection.

Record Instance : Type := {
  this_granttype : jsval;
  cb : option nat;
  certs : option (gmap string string);
  tokenExpiration : option Date.timevalue
}.

Definition set_cb (f : option nat) (o : Instance) : Instance :=
  {| this_granttype := this_granttype o; cb := f; certs := certs o;
     tokenExpiration := tokenExpiration o |}.
Definition set_certs (c : option (gmap string string)) (o : Instance) : Instance :=
  {| this_granttype := this_granttype o; cb := cb o; certs := c;
     tokenExpiration := tokenExpiration o |}.
Definition set_tokenExpiration (d : Date.timevalue) (o : Instance) : Instance :=
  {| this_granttype := this_granttype o; cb := cb o; certs := certs o;
     tokenExpiration := Some d |}.

(** [new AuthorizationCodeConnection(conn)] *)
Definition construct (conn : ADPAPIConnection) : Instance :=
  {| this_granttype := granttype conn; cb := None; certs := None;
     tokenExpiration := None |}.

Section Methods.
Variable conn : ADPAPIConnection.
Variable fs : gmap string string.
Variable defaultexpiration : Z.
Variable tza : Date.zone.

Definition buildTokenRequestBody : M Instance Payload :=
  let* o := get in
  let* a := lift (buildAgentOptions fs conn) in
  ret {| agentOptions := a;
         strictSSL := false;
         auth := None;
         form := {[ "grant_type" := this_granttype o;
                    "code" := authorizationCode conn;
                    "redirect_uri" := callbackUrl conn;
                    "client_id" := clientId conn;
                    "client_secret" := clientSecret conn ]} |}.

Definition buildRefreshTokenRequestBody (refreshToken : jsval) : M Instance Payload :=
  let* a := lift (buildAgentOptions fs conn) in
  ret {| agentOptions := a;
         strictSSL := false;
         auth := None;
         form := {[ "grant_type" := JStr "refresh_token";
                    "refresh_token" := refreshToken;
                    "client_id" := clientId conn;
                    "client_secret" := clientSecret conn;
                    "scope" := JStr "openid profile api" ]} |}.

Definition getAccessToken (refreshToken : jsval) : M Instance unit :=
  let* p := (if truthy refreshToken then buildRefreshTokenRequestBody refreshToken
             else buildTokenRequestBody) in
  emit (EvPost {| requestDesc := "Authorization Code - Access Token Request";
                  url := tokenUrl conn;
                  payload := p |}).

(** The callback handed to [readCerts]; [refreshToken] is the variable of
    the enclosing [getCerts] call. *)
Definition readCertsCb (refreshToken : jsval) (err : jsval)
    (certs : option (gmap string string)) : M Instance unit :=
  if truthy err then
    let* o := get in
    call (cb o) (LoaderError err) (CertsArg certs)
  else
    modify (set_certs certs) ;;
    getAccessToken refreshToken.

Definition getCerts (refreshToken : jsval) : M Instance unit :=
  let certPaths := List.filter truthy_str [sslCertPath conn; sslKeyPath conn] in
  if (0 <? Z.of_nat (length certPaths)) then
    emit (EvReadCerts certPaths (AuthorizationCodeCb refreshToken))
  else
    getAccessToken refreshToken.

Definition connect (f : option nat) : M Instance unit :=
  let* o := get in
  emit (EvDebug (DbgInitializing (this_granttype o))) ;;
  modify (set_cb f) ;;
  getCerts JUndefined.

Definition refresh (refreshToken : jsval) (f : option nat) : M Instance unit :=
  let* o := get in
  emit (EvDebug (DbgInitializingRefresh (this_granttype o))) ;;
  modify (set_cb f) ;;
  getCerts refreshToken.

(** [date.getSeconds() + token.expires_in || default]: the sum is
    the left operand of [||]. *)
Definition setTokenExpiration (now : Z) (token : Token) : M Instance unit :=
  let date := Date.newDate now in
  let date := Date.setSeconds tza date
                (num_or (num_add (Date.getSeconds tza date) (to_number (expires_in token)))
                        (of_Z defaultexpiration)) in
  modify (set_tokenExpiration date).

Definition parseTokenResponse (now : Z) (err : option TransportError)
    (token : option Token) : M Instance unit :=
  let* ex :=
    match err with
    | Some e =>
        emit (EvDebug (DbgTokenError e)) ;;
        (* response.body with response = err.response *)
        match response e with
        | Some r =>
            ret (ConnectionException {| eo_statusCode := statusCode e;
                                        oauthResponse := body r |})
        | None => throw TypeError
        end
    | None => ret NoError
    end in
  match token with
  | None => emit (EvDebug DbgNoToken)
  | Some t =>
      if negb (truthy (access_token t)) then emit (EvDebug DbgNoToken)
      else setTokenExpiration now t
  end ;;
  let* o := get in
  call (cb o) ex (TokenArg token).
End Methods.

End AuthorizationCodeConnection.

(** ** Later activity on a connection

    The methods that the user, the certificate loader and the transport can
    invoke on a connection, and a run of such invocations one after the
    other.  An exception ends the invocation that raised it; the object
    keeps what was assigned before. *)

Module ClientCredentialsRun.
Import ClientCredentialsConnection.

Inductive invocation : Type :=
| Connect (f : option nat)
| ReadCertsCb (err : jsval) (certs : option (gmap string string))
| ParseTokenResponse (now : Z) (err : option TransportError) (token : option Token).

Section Run.
Variable conn : ADPAPIConnection.
Variable fs : gmap string string.
Variable defaultexpiration : Z.
Variable tza : Date.zone.

Definition invoke (i : invocation) : M Instance unit :=
  match i with
  | Connect f => connect conn fs f
  | ReadCertsCb err c => readCertsCb conn fs err c
  | ParseTokenResponse now err token => parseTokenResponse defaultexpiration tza now err token
  end.

Fixpoint run (l : list invocation) (w : world Instance) : world Instance :=
  match l with
  | [] => w
  | i :: l' => run l' (snd (invoke i w))
  end.
End Run.

(** The invocation delivers a token with a usable [access_token]. *)
Definition brings_token (i : invocation) : bool :=
  match i with
  | ParseTokenResponse _ _ token => negb (no_access_token token)
  | _ => false
  end.

End ClientCredentialsRun.

Module AuthorizationCodeRun.
Import AuthorizationCodeConnection.

Inductive invocation : Type :=
| Connect (f : option nat)
| Refresh (refreshToken : jsval) (f : option nat)
| ReadCertsCb (refreshToken : jsval) (err : jsval) (certs : option (gmap string string))
| ParseTokenResponse (now : Z) (err : option TransportError) (token : option Token).

Section Run.
Variable conn : ADPAPIConnection.
Variable fs : gmap string string.
Variable defaultexpiration : Z.
Variable tza : Date.zone.

Definition invoke (i : invocation) : M Instance unit :=
  match i with
  | Connect f => connect conn fs f
  | Refresh rt f => refresh conn fs rt f
  | ReadCertsCb rt err c => readCertsCb conn fs rt err c
  | ParseTokenResponse now err token => parseTokenResponse defaultexpiration tza now err token
  end.

Fixpoint run (l : list invocation) (w : world Instance) : world Instance :=
  match l with
  | [] => w
  | i :: l' => run l' (snd (invoke i w))
  end.
End Run.

Definition brings_token (i : invocation) : bool :=
  match i with
  | ParseTokenResponse _ _ token => negb (no_access_token token)
  | _ => false
  end.

(** The certificate loader answering [(err, certs)]: it calls the function
    it was handed by the latest [readCerts] call, which is [readCertsCb]
    with the refresh token of that [getCerts] call. *)
Definition loaderAnswers (conn : ADPAPIConnection) (fs : gmap string string)
    (err : jsval) (certs : option (gmap string string)) : M Instance unit :=
  fun w =>
    match pending_loader_callback (log w) with
    | Some (AuthorizationCodeCb refreshToken) => readCertsCb conn fs refreshToken err certs w
    | _ => (Done tt, w)
    end.

End AuthorizationCodeRun.

(** ** Sample configurations and responses *)

Module Samples.

(** Inline certificate and key, no paths. *)
Definition conn_inline : ADPAPIConnection :=
  {| granttype := JStr "authorization_code";
     tokenUrl := JStr "https://token.example/auth/oauth/v2/token";
     clientId := JStr "client-1";
     clientSecret := JStr "s3cret";
     authorizationCode := JStr "code-42";
     callbackUrl := JStr "https://app.example/callback";
     sslCertPath := None; sslKeyPath := None;
     sslCertString := Some "CERT PEM"; sslKeyString := Some "KEY PEM" |}.

(** Certificate and key on disk, no inline strings. *)
Definition conn_files : ADPAPIConnection :=
  {| granttype := JStr "client_credentials";
     tokenUrl := JStr "https://token.example/auth/oauth/v2/token";
     clientId := JStr "client-1";
     clientSecret := JStr "s3cret";
     authorizationCode := JUndefined;
     callbackUrl := JUndefined;
     sslCertPath := Some "iat.pem"; sslKeyPath := Some "iat.key";
     sslCertString := None; sslKeyString := None |}.

Definition disk : gmap string string :=
  {[ "iat.pem" := "CERT ON DISK"; "iat.key" := "KEY ON DISK" ]}.

(** The client-credentials payload for [conn_files] with [disk]. *)
Definition cc_payload_files : Payload :=
  {| agentOptions := {| ca := [Buffer "CERT ON DISK"];
                        key := Buffer "KEY ON DISK";
                        cert := Buffer "CERT ON DISK" |};
     strictSSL := false;
     auth := Some {| user := JStr "client-1"; pass := JStr "s3cret";
                     sendImmediately := true |};
     form := {[ "grant_type" := JStr "client_credentials" ]} |}.

Definition token_3600 : Token :=
  {| access_token := JStr "abc"; expires_in := Some (Int 3600); others := [] |}.
Definition token_0 : Token :=
  {| access_token := JStr "abc"; expires_in := Some (Int 0); others := [] |}.
Definition token_no_expiry : Token :=
  {| access_token := JStr "abc"; expires_in := None; others := [] |}.
Definition token_empty : Token :=
  {| access_token := JUndefined; expires_in := Some (Int 3600);
     others := [("error", JStr "invalid_grant")] |}.

(** 2023-11-14T22:13:50.500Z: fifty seconds into the minute. *)
Definition clock : Z := 1700000030500.

Definition err_401 : TransportError :=
  {| statusCode := JNum 401;
     response := Some {| body := JStr "error=invalid_grant" |} |}.
(** A network-level failure: no HTTP response came back. *)
Definition err_no_response : TransportError :=
  {| statusCode := JUndefined; response := None |}.

Definition cc_start (conn : ADPAPIConnection) : world ClientCredentialsConnection.Instance :=
  {| this := ClientCredentialsConnection.construct conn; log := [] |}.
Definition ac_start (conn : ADPAPIConnection) : world AuthorizationCodeConnection.Instance :=
  {| this := AuthorizationCodeConnection.construct conn; log := [] |}.

(** A connection on which [connect(f)] has stored callback number 7. *)
Definition cc_waiting (conn : ADPAPIConnection) : world ClientCredentialsConnection.Instance :=
  {| this := ClientCredentialsConnection.set_cb (Some 7%nat)
               (ClientCredentialsConnection.construct conn);
     log := [] |}.
Definition ac_waiting (conn : ADPAPIConnection) : world AuthorizationCodeConnection.Instance :=
  {| this := AuthorizationCodeConnection.set_cb (Some 7%nat)
               (AuthorizationCodeConnection.construct conn);
     log := [] |}.

End Samples.

(** ** Further sample configurations *)

Module Cases.

(** No certificate and no key configured at all. *)
Definition conn_bare : ADPAPIConnection :=
  {| granttype := JStr "client_credentials";
     tokenUrl := JStr "https://token.example/auth/oauth/v2/token";
     clientId := JStr "client-1";
     clientSecret := JStr "s3cret";
     authorizationCode := JUndefined;
     callbackUrl := JUndefined;
     sslCertPath := None; sslKeyPath := None;
     sslCertString := None; sslKeyString := None |}.

(** Certificate inline, key on disk. *)
Definition conn_mixed : ADPAPIConnection :=
  {| granttype := JStr "authorization_code";
     tokenUrl := JStr "https://token.example/auth/oauth/v2/token";
     clientId := JStr "client-1";
     clientSecret := JStr "s3cret";
     authorizationCode := JStr "code-42";
     callbackUrl := JStr "https://app.example/callback";
     sslCertPath := None; sslKeyPath := Some "iat.key";
     sslCertString := Some "CERT PEM"; sslKeyString := None |}.

(** A transport error that comes with a token carrying an access_token. *)
Definition err_500 : TransportError :=
  {| statusCode := JNum 500; response := Some {| body := JStr "upstream" |} |}.

(** A response whose expires_in is half a second. *)
Definition token_half : Token :=
  {| access_token := JStr "abc"; expires_in := Some (Fin (1 # 2)); others := [] |}.

(** A response whose expires_in times 1000 is not a double. *)
Definition token_huge : Token :=
  {| access_token := JStr "abc"; expires_in := Some (Int 1000000000000001);
     others := [] |}.

(** US Eastern time around the end of daylight saving time in 2023: the
    offset is -4 h before 2023-11-05T06:00:00Z and -5 h from then on; a
    local time is read with the offset before the change when it is before
    02:00 on that day. *)
Definition new_york_2023 : Date.zone :=
  fun t isUTC =>
    if isUTC then (if t <? 1699164000000 then -14400000 else -18000000)
    else (if t <? 1699149600000 then -14400000 else -18000000).

(** 2023-11-05T05:30:00Z, which is 01:30 daylight time in New York. *)
Definition clock_before_change : Z := 1699162200000.

End Cases.

(** ** The three request builders *)

(** [built conn fs p]: one of the three builders returned payload [p] for
    configuration [conn] with the files [fs] on disk. *)
Inductive built (conn : ADPAPIConnection) (fs : gmap string string) : Payload -> Prop :=
| built_client_credentials w w' p :
    ClientCredentialsConnection.buildTokenRequestBody conn fs w = (Done p, w') ->
    built conn fs p
| built_authorization_code w w' p :
    AuthorizationCodeConnection.buildTokenRequestBody conn fs w = (Done p, w') ->
    built conn fs p
| built_refresh refreshToken w w' p :
    AuthorizationCodeConnection.buildRefreshTokenRequestBody conn fs refreshToken w
    = (Done p, w') ->
    built conn fs p.

(** * Properties *)

(** ** Number and time arithmetic *)

(** Rounding at work: one tenth, an odd integer above 2^53, and a product
    that needs more than 53 bits. *)
Lemma round_double_examples :
  round_double (1 # 10) = Fin (3602879701896397 # 36028797018963968)
  /\ of_Z (2 ^ 53 + 1) = Int (2 ^ 53)
  /\ num_mul (Int 1000000000000001) (Int 1000) = Int 1000000000000001024.
Proof. vm_compute. repeat split; reflexivity. Qed.

(** An integer is in lowest terms. *)
Lemma Qred_inject_Z (z : Z) : Qred (inject_Z z) = inject_Z z.
Proof.
  unfold Qred, inject_Z.
  pose proof (Z.ggcd_gcd z 1) as Hg. pose proof (Z.ggcd_correct_divisors z 1) as Hd.
  destruct (Z.ggcd z 1) as [g [a b]]. cbn [fst snd] in *.
  rewrite Z.gcd_1_r in Hg. subst g. destruct Hd as [Ha Hb].
  rewrite !Z.mul_1_l in *. subst a b. reflexivity.
Qed.

Lemma scaled_exact (n : Z) (j : Z) :
  0 <= j -> scaled (n * 2 ^ j) (- j) = inject_Z n.
Proof.
  intros Hj. unfold scaled. destruct (Z.leb_spec 0 (- j)) as [H|H].
  - assert (j = 0) by lia. subst j. cbn [Z.opp]. rewrite !Z.pow_0_r, !Z.mul_1_r. reflexivity.
  - rewrite Z.opp_involutive. rewrite <- (Qred_inject_Z n). apply Qred_complete.
    unfold Qeq. cbn [Qnum Qden inject_Z]. rewrite Z2Pos.id by (apply Z.pow_pos_nonneg; lia).
    lia.
Qed.

(** Rounding leaves an integer of magnitude up to 2^53 as it is. *)
Lemma round_mantissa_int (n : Z) :
  0 < n <= 2 ^ 53 ->
  exists m ex, round_mantissa n 1 = (m, ex)
               /\ scaled m ex = inject_Z n
               /\ (2 ^ 1024 <=? m * 2 ^ ex) = false.
Proof.
  intros [Hpos Hle]. unfold round_mantissa.
  change (Z.log2 1) with 0. rewrite Z.sub_0_r.
  pose proof (Z.log2_nonneg n) as Hk0.
  pose proof (Z.log2_spec n Hpos) as [Hlo Hhi].
  assert (Hk : Z.log2 n <= 53).
  { destruct (Z.le_gt_cases (Z.log2 n) 53) as [H|H]; [exact H|].
    assert (2 ^ 54 <= 2 ^ Z.log2 n) by (apply Z.pow_le_mono_r; lia). lia. }
  set (k := Z.log2 n) in *. clearbody k.
  destruct (Z.leb_spec 0 k) as [_|]; [|lia].
  rewrite Z.mul_1_r. destruct (Z.leb_spec (2 ^ k) n) as [_|]; [|lia].
  rewrite Z.max_l by lia.
  destruct (Z.leb_spec (k - 52) 0) as [Hex|Hex].
  - rewrite Z.div_1_r, Z.mod_1_r. change (2 * 0 ?= 1) with Lt. cbv iota.
    replace (k - 52) with (- (52 - k)) by lia. rewrite Z.opp_involutive.
    eexists _, _. split; [reflexivity|]. split.
    + apply scaled_exact. lia.
    + apply Z.leb_gt.
      destruct (Z.eq_dec k 52) as [->|Hne].
      * cbn [Z.sub Z.opp Z.pos_sub Z.add]. rewrite !Z.pow_0_r, !Z.mul_1_r.
        assert (2 ^ 53 < 2 ^ 1024) by (apply Z.pow_lt_mono_r; lia). lia.
      * rewrite (Z.pow_neg_r 2 (- (52 - k))) by lia. rewrite Z.mul_0_r.
        apply Z.pow_pos_nonneg; lia.
  - assert (k = 53) by lia. subst k.
    assert (n = 2 ^ 53) by lia. subst n.
    eexists _, _. split; [reflexivity|]. split; [reflexivity|]. reflexivity.
Qed.

Lemma round_double_int (q : Q) (z : Z) :
  q == inject_Z z -> Z.abs z <= 2 ^ 53 -> round_double q = Int z.
Proof.
  intros Hq Hz. unfold round_double.
  rewrite (Qred_complete _ _ Hq), Qred_inject_Z. cbn [Qnum Qden inject_Z].
  destruct (Z.eqb_spec z 0) as [->|Hnz]; [reflexivity|].
  destruct (round_mantissa_int (Z.abs z)) as (m & ex & -> & Hs & ->); [lia|].
  unfold Int. f_equal. rewrite Hs.
  destruct (Z.ltb_spec z 0).
  - unfold Qopp, inject_Z. cbn [Qnum Qden]. f_equal. lia.
  - f_equal. lia.
Qed.

Lemma of_Z_int (z : Z) : Z.abs z <= 2 ^ 53 -> of_Z z = Int z.
Proof. intros H. apply round_double_int; [reflexivity | exact H]. Qed.

Lemma num_add_int (a b : Z) :
  Z.abs (a + b) <= 2 ^ 53 -> num_add (Int a) (Int b) = Int (a + b).
Proof.
  intros H. unfold num_add, Int. apply round_double_int; [|exact H].
  rewrite <- inject_Z_plus. reflexivity.
Qed.

Lemma num_sub_int (a b : Z) :
  Z.abs (a - b) <= 2 ^ 53 -> num_sub (Int a) (Int b) = Int (a - b).
Proof.
  intros H. unfold num_sub, num_neg, num_add, Int. apply round_double_int; [|exact H].
  rewrite <- inject_Z_opp, <- inject_Z_plus. reflexivity.
Qed.

Lemma num_mul_int (a b : Z) :
  Z.abs (a * b) <= 2 ^ 53 -> num_mul (Int a) (Int b) = Int (a * b).
Proof.
  intros H. unfold num_mul, Int. apply round_double_int; [|exact H].
  rewrite <- inject_Z_mult. reflexivity.
Qed.

Lemma num_div_1000_int (n : Z) :
  Z.abs n <= 2 ^ 53 -> num_div_1000 (Int (n * 1000)) = Int n.
Proof.
  intros H. unfold num_div_1000, Int. apply round_double_int; [|exact H].
  rewrite inject_Z_mult. apply Qdiv_mult_l. discriminate.
Qed.

Lemma truncate_int (z : Z) : truncate (inject_Z z) = z.
Proof. unfold truncate, inject_Z. cbn [Qnum Qden]. apply Z.quot_1_r. Qed.

Lemma TimeClip_int (z : Z) :
  Date.TimeClip (Int z) = if Z.abs z <=? Date.maxTime then Date.Num z else Date.Invalid.
Proof.
  unfold Date.TimeClip, Int. rewrite truncate_int.
  destruct (Z.leb_spec (Z.abs z) Date.maxTime) as [H|H].
  - assert (E : Qle_bool (Qabs (inject_Z z)) (inject_Z Date.maxTime) = true); [|rewrite E; reflexivity].
    apply Qle_bool_iff. unfold Qabs, inject_Z, Qle. cbn [Qnum Qden]. lia.
  - destruct (Qle_bool (Qabs (inject_Z z)) (inject_Z Date.maxTime)) eqn:E; [|reflexivity].
    apply Qle_bool_iff in E. unfold Qabs, inject_Z, Qle in E. cbn [Qnum Qden] in E. lia.
Qed.

Section DateFacts.
Import Date.

Lemma time_fields (t : Z) :
  t = Day t * msPerDay
      + (HourFromTime t * msPerHour + MinFromTime t * msPerMinute
         + SecFromTime t * msPerSecond + msFromTime t).
Proof.
  unfold Day, HourFromTime, MinFromTime, SecFromTime, msFromTime,
    msPerDay, msPerHour, msPerMinute, msPerSecond.
  assert (Hs : t / 60000 = t / 1000 / 60) by (rewrite Z.div_div by lia; reflexivity).
  assert (Hm : t / 3600000 = t / 60000 / 60) by (rewrite Z.div_div by lia; reflexivity).
  assert (Hh : t / 86400000 = t / 3600000 / 24) by (rewrite Z.div_div by lia; reflexivity).
  pose proof (Z.div_mod t 1000 ltac:(lia)) as E1.
  pose proof (Z.div_mod (t / 1000) 60 ltac:(lia)) as E2.
  pose proof (Z.div_mod (t / 60000) 60 ltac:(lia)) as E3.
  pose proof (Z.div_mod (t / 3600000) 24 ltac:(lia)) as E4.
  rewrite <- Hs in E2. rewrite <- Hm in E3. rewrite <- Hh in E4.
  lia.
Qed.

Lemma field_ranges (t : Z) :
  0 <= HourFromTime t < 24 /\ 0 <= MinFromTime t < 60
  /\ 0 <= SecFromTime t < 60 /\ 0 <= msFromTime t < 1000.
Proof.
  unfold HourFromTime, MinFromTime, SecFromTime, msFromTime, msPerSecond.
  repeat split; apply Z.mod_pos_bound; lia.
Qed.

Lemma LocalTime_int (tz : zone) (t : Z) :
  Z.abs t + Z.abs (tz t true) <= 2 ^ 53 ->
  LocalTime tz t = Int (t + tz t true).
Proof.
  intros H. unfold LocalTime. rewrite !of_Z_int, num_add_int by lia. reflexivity.
Qed.

Lemma getSeconds_int (tz : zone) (t : Z) :
  Z.abs t + Z.abs (tz t true) <= 2 ^ 53 ->
  getSeconds tz (Num t) = Int (SecFromTime (t + tz t true)).
Proof.
  intros H. unfold getSeconds. rewrite LocalTime_int by exact H.
  unfold Int at 1. rewrite Qfloor_Z. apply of_Z_int.
  pose proof (field_ranges (t + tz t true)). lia.
Qed.

Lemma MakeTime_int (h m s ms : Z) :
  0 <= h < 24 -> 0 <= m < 60 -> 0 <= ms < 1000 ->
  1000 * Z.abs s + msPerDay <= 2 ^ 53 ->
  MakeTime h m (Int s) ms = Int (h * msPerHour + m * msPerMinute + s * msPerSecond + ms).
Proof.
  intros Rh Rm Rms H. unfold MakeTime, Int at 1. rewrite truncate_int.
  unfold msPerDay, msPerHour, msPerMinute, msPerSecond in *.
  change (2 ^ 53) with 9007199254740992 in H.
  assert (B : forall z, Z.abs z <= 9007199254740992 -> Z.abs z <= 2 ^ 53)
    by (intros z Hz; exact Hz).
  rewrite !of_Z_int by (apply B; lia).
  rewrite !num_mul_int by (apply B; lia).
  rewrite !num_add_int by (apply B; lia).
  reflexivity.
Qed.

Lemma MakeDate_int (d tm : Z) :
  Z.abs (d * msPerDay) + Z.abs tm <= 2 ^ 53 ->
  MakeDate d (Int tm) = Int (d * msPerDay + tm).
Proof.
  intros H. unfold MakeDate, Int at 1.
  unfold msPerDay in *.
  change (2 ^ 53) with 9007199254740992 in H.
  assert (B : forall z, Z.abs z <= 9007199254740992 -> Z.abs z <= 2 ^ 53)
    by (intros z Hz; exact Hz).
  fold (Int tm).
  rewrite !of_Z_int by (apply B; lia).
  rewrite !num_mul_int by (apply B; lia).
  rewrite !num_add_int by (apply B; lia).
  reflexivity.
Qed.

Lemma UTC_int (tz : zone) (x : Z) :
  Z.abs x + Z.abs (tz x false) <= 2 ^ 53 ->
  UTC tz (Int x) = Int (x - tz x false).
Proof.
  intros H. unfold UTC, Int at 1. rewrite Qfloor_Z. fold (Int x).
  rewrite of_Z_int, num_sub_int by lia. reflexivity.
Qed.

(** [setSeconds] replaces the seconds field of the local time and leaves
    the other fields, while every intermediate value is an integer that a
    double holds exactly. *)
Lemma setSeconds_int (tz : zone) (t s : Z) :
  Z.abs t + Z.abs (tz t true) + 1000 * Z.abs s
  + Z.abs (tz (t + tz t true + 1000 * (s - SecFromTime (t + tz t true))) false)
  + 2 * msPerDay <= 2 ^ 53 ->
  setSeconds tz (Num t) (Int s)
  = TimeClip (Int (t + tz t true + 1000 * (s - SecFromTime (t + tz t true))
                   - tz (t + tz t true + 1000 * (s - SecFromTime (t + tz t true))) false)).
Proof.
  intros H. unfold setSeconds. rewrite LocalTime_int by (unfold msPerDay in H; lia).
  unfold Int at 1. rewrite Qfloor_Z. cbv zeta.
  set (L := t + tz t true) in *.
  pose proof (time_fields L) as E. pose proof (field_ranges L) as (Rh & Rm & Rs & Rms).
  assert (Rd : 0 <= L - Day L * msPerDay < msPerDay).
  { unfold Day. pose proof (Z.mod_pos_bound L msPerDay ltac:(reflexivity)) as M.
    rewrite Z.mod_eq in M by discriminate. unfold msPerDay in *. lia. }
  rewrite MakeTime_int by (try assumption; unfold msPerDay in *; lia).
  set (X := L + 1000 * (s - SecFromTime L)) in *.
  assert (EX : Day L * msPerDay
               + (HourFromTime L * msPerHour + MinFromTime L * msPerMinute
                  + s * msPerSecond + msFromTime L) = X).
  { unfold X. unfold msPerSecond in *. lia. }
  unfold msPerDay, msPerHour, msPerMinute, msPerSecond in *.
  rewrite MakeDate_int by (unfold msPerDay; lia).
  unfold msPerDay. rewrite EX.
  rewrite UTC_int by lia. reflexivity.
Qed.
(** Setting the seconds to [getSeconds() + n] moves the local time by
    [n] seconds. *)
Lemma setSeconds_plus (tz : zone) (t n : Z) :
  Z.abs t + Z.abs (tz t true) + 1000 * Z.abs n
  + Z.abs (tz (t + tz t true + 1000 * n) false) + 3 * msPerDay <= 2 ^ 53 ->
  setSeconds tz (Num t) (Int (SecFromTime (t + tz t true) + n))
  = TimeClip (Int (t + tz t true + 1000 * n - tz (t + tz t true + 1000 * n) false)).
Proof.
  intros H. pose proof (field_ranges (t + tz t true)) as (_ & _ & Rs & _).
  assert (E : t + tz t true
              + 1000 * (SecFromTime (t + tz t true) + n - SecFromTime (t + tz t true))
              = t + tz t true + 1000 * n) by lia.
  rewrite setSeconds_int; rewrite E; [reflexivity|].
  unfold msPerDay in *. lia.
Qed.
End DateFacts.

(** ** What each method leaves on the object *)

Ltac exec :=
  repeat progress
    (cbv beta iota zeta delta [bind ret get modify emit lift call throw];
     cbn [fst snd this log response]).

Section ClientCredentialsFacts.
Import ClientCredentialsConnection ClientCredentialsRun.
Variable conn : ADPAPIConnection.
Variable fs : gmap string string.
Variable defaultexpiration : Z.
Variable tza : Date.zone.

(** [setTokenExpiration] assigns the two properties and does nothing
    else. *)
Lemma cc_setTokenExpiration_eq (now : Z) (token : Token) (w : world Instance) :
  setTokenExpiration defaultexpiration tza now token w
  = (Done tt,
     {| this :=
          set_tokenExpiration
            (Date.setSeconds tza (Num now)
               (num_add (Date.getSeconds tza (Num now))
                  (num_div_1000
                     (num_mul (num_or (to_number (expires_in token))
                                      (of_Z defaultexpiration))
                              (Int 1000)))))
            (set_tokenExpirationMs
               (num_mul (num_or (to_number (expires_in token)) (of_Z defaultexpiration))
                        (Int 1000))
               (this w));
        log := log w |}).
Proof. reflexivity. Qed.

Lemma cc_getAccessToken_keeps (w : world Instance) :
  this (snd (getAccessToken conn fs w)) = this w.
Proof.
  unfold getAccessToken, buildTokenRequestBody. exec.
  destruct (buildAgentOptions fs conn); reflexivity.
Qed.

Lemma cc_getCerts_keeps (w : world Instance) :
  this (snd (getCerts conn fs w)) = this w.
Proof.
  unfold getCerts. destruct (0 <? _).
  - reflexivity.
  - apply cc_getAccessToken_keeps.
Qed.

(** Only [setTokenExpiration] assigns the expiration: no other
    invocation changes it. *)
Lemma cc_invoke_keeps_expiration (i : invocation) (w : world Instance) :
  brings_token i = false ->
  tokenExpiration (this (snd (invoke conn fs defaultexpiration tza i w)))
  = tokenExpiration (this w) /\
  tokenExpirationMs (this (snd (invoke conn fs defaultexpiration tza i w)))
  = tokenExpirationMs (this w).
Proof.
  intros Hi. destruct i as [f | err c | now err token]; cbn [invoke].
  - unfold connect. exec.
    match goal with |- context [getCerts conn fs ?w0] =>
      rewrite (cc_getCerts_keeps w0) end.
    split; reflexivity.
  - unfold readCertsCb. destruct (truthy err).
    + exec. destruct (cb (this w)); split; reflexivity.
    + exec.
      match goal with |- context [getAccessToken conn fs ?w0] =>
        rewrite (cc_getAccessToken_keeps w0) end.
      split; reflexivity.
  - cbn [brings_token] in Hi. apply negb_false_iff in Hi.
    unfold parseTokenResponse, no_access_token in *.
    destruct token as [t|].
    + rewrite Hi. destruct err as [e|]; exec; destruct (cb (this w)); split; reflexivity.
    + destruct err as [e|]; exec; destruct (cb (this w)); split; reflexivity.
Qed.

Lemma cc_run_keeps_expiration (l : list invocation) (w : world Instance) :
  Forall (fun i => brings_token i = false) l ->
  tokenExpiration (this (run conn fs defaultexpiration tza l w)) = tokenExpiration (this w) /\
  tokenExpirationMs (this (run conn fs defaultexpiration tza l w)) = tokenExpirationMs (this w).
Proof.
  intros H. revert w. induction H as [| i l Hi _ IH]; intros w; cbn [run].
  - split; reflexivity.
  - destruct (IH (snd (invoke conn fs defaultexpiration tza i w))) as [E1 E2].
    destruct (cc_invoke_keeps_expiration i w Hi) as [K1 K2].
    split; congruence.
Qed.

(** The handler on a successful response carrying a usable token. *)
Lemma cc_parse_with_token (now : Z) (err : option TransportError) (t : Token)
    (w : world Instance) :
  truthy (access_token t) = true ->
  tokenExpiration (this (snd (parseTokenResponse defaultexpiration tza now err (Some t) w)))
  = Some (Date.setSeconds tza (Num now)
            (num_add (Date.getSeconds tza (Num now))
               (num_div_1000
                  (num_mul (num_or (to_number (expires_in t)) (of_Z defaultexpiration))
                           (Int 1000))))) /\
  tokenExpirationMs (this (snd (parseTokenResponse defaultexpiration tza now err (Some t) w)))
  = Some (num_mul (num_or (to_number (expires_in t)) (of_Z defaultexpiration)) (Int 1000)).
Proof.
  intros Ht. unfold parseTokenResponse. rewrite Ht. cbn [negb].
  destruct err as [e|]; exec; rewrite cc_setTokenExpiration_eq; exec;
    match goal with |- context [cb ?o] => destruct (cb o) end; split; reflexivity.
Qed.
End ClientCredentialsFacts.

Section AuthorizationCodeFacts.
Import AuthorizationCodeConnection AuthorizationCodeRun.
Variable conn : ADPAPIConnection.
Variable fs : gmap string string.
Variable defaultexpiration : Z.
Variable tza : Date.zone.

Lemma ac_setTokenExpiration_eq (now : Z) (token : Token) (w : world Instance) :
  setTokenExpiration defaultexpiration tza now token w
  = (Done tt,
     {| this :=
          set_tokenExpiration
            (Date.setSeconds tza (Num now)
               (num_or (num_add (Date.getSeconds tza (Num now))
                                (to_number (expires_in token)))
                       (of_Z defaultexpiration)))
            (this w);
        log := log w |}).
Proof. reflexivity. Qed.

Lemma ac_getAccessToken_keeps (rt : jsval) (w : world Instance) :
  this (snd (getAccessToken conn fs rt w)) = this w.
Proof.
  unfold getAccessToken, buildRefreshTokenRequestBody, buildTokenRequestBody.
  destruct (truthy rt); exec; destruct (buildAgentOptions fs conn); reflexivity.
Qed.

Lemma ac_getCerts_keeps (rt : jsval) (w : world Instance) :
  this (snd (getCerts conn fs rt w)) = this w.
Proof.
  unfold getCerts. destruct (0 <? _).
  - reflexivity.
  - apply ac_getAccessToken_keeps.
Qed.

Lemma ac_invoke_keeps_expiration (i : invocation) (w : world Instance) :
  brings_token i = false ->
  tokenExpiration (this (snd (invoke conn fs defaultexpiration tza i w)))
  = tokenExpiration (this w).
Proof.
  intros Hi. destruct i as [f | rt f | rt err c | now err token]; cbn [invoke].
  - unfold connect. exec.
    match goal with |- context [getCerts conn fs ?r ?w0] =>
      rewrite (ac_getCerts_keeps r w0) end.
    reflexivity.
  - unfold refresh. exec.
    match goal with |- context [getCerts conn fs ?r ?w0] =>
      rewrite (ac_getCerts_keeps r w0) end.
    reflexivity.
  - unfold readCertsCb. destruct (truthy err).
    + exec. destruct (cb (this w)); reflexivity.
    + exec.
      match goal with |- context [getAccessToken conn fs ?r ?w0] =>
        rewrite (ac_getAccessToken_keeps r w0) end.
      reflexivity.
  - cbn [brings_token] in Hi. apply negb_false_iff in Hi.
    unfold parseTokenResponse, no_access_token in *.
    destruct token as [t|].
    + rewrite Hi. destruct err as [[sc [r|]]|]; exec; try reflexivity;
        destruct (cb (this w)); reflexivity.
    + destruct err as [[sc [r|]]|]; exec; try reflexivity;
        destruct (cb (this w)); reflexivity.
Qed.

Lemma ac_run_keeps_expiration (l : list invocation) (w : world Instance) :
  Forall (fun i => brings_token i = false) l ->
  tokenExpiration (this (run conn fs defaultexpiration tza l w)) = tokenExpiration (this w).
Proof.
  intros H. revert w. induction H as [| i l Hi _ IH]; intros w; cbn [run].
  - reflexivity.
  - rewrite IH. apply ac_invoke_keeps_expiration, Hi.
Qed.

(** The handler on a successful response carrying a usable token. *)
Lemma ac_parse_with_token (now : Z) (t : Token) (w : world Instance) :
  truthy (access_token t) = true ->
  tokenExpiration (this (snd (parseTokenResponse defaultexpiration tza now None (Some t) w)))
  = Some (Date.setSeconds tza (Num now)
            (num_or (num_add (Date.getSeconds tza (Num now)) (to_number (expires_in t)))
                    (of_Z defaultexpiration))).
Proof.
  intros Ht. unfold parseTokenResponse. rewrite Ht. cbn [negb].
  exec. rewrite ac_setTokenExpiration_eq. exec.
  match goal with |- context [cb ?o] => destruct (cb o) end; reflexivity.
Qed.
End AuthorizationCodeFacts.

(** ** Expiration computed from [expires_in] *)

(** The client-credentials expiration for an effective lifetime of [n]
    whole seconds. *)
Lemma cc_expiration_int (tza : Date.zone) (now n : Z) :
  Z.abs now + Z.abs (tza now true) + 1000 * Z.abs n
  + Z.abs (tza (now + tza now true + 1000 * n) false) + 3 * Date.msPerDay <= 2 ^ 53 ->
  num_mul (Int n) (Int 1000) = Int (n * 1000)
  /\ Date.setSeconds tza (Num now)
       (num_add (Date.getSeconds tza (Num now))
                (num_div_1000 (num_mul (Int n) (Int 1000))))
     = Date.TimeClip
         (Int (now + tza now true + 1000 * n - tza (now + tza now true + 1000 * n) false)).
Proof.
  intros H. pose proof (field_ranges (now + tza now true)) as (_ & _ & Rs & _).
  unfold Date.msPerDay in H.
  rewrite num_mul_int by lia. split; [reflexivity|].
  rewrite getSeconds_int, num_div_1000_int, num_add_int by lia.
  apply setSeconds_plus. unfold Date.msPerDay. lia.
Qed.

Lemma num_or_int (n : Z) (y : number) : n <> 0 -> num_or (Int n) y = Int n.
Proof.
  intros H. unfold num_or, num_truthy, Int. cbn [Qnum inject_Z].
  destruct (Z.eqb_spec n 0); [contradiction | reflexivity].
Qed.

(** C1, as stated, fails in four ways.  A client-credentials response
    with [expires_in = 0] gets the default 3600 seconds, not [now + 0], and
    tokenExpirationMs is 3600000, not 0.  With [expires_in] half a second
    both classes store [now], because [setSeconds] drops the fraction.  In
    New York at 01:30 on the night daylight saving time ends,
    [expires_in = 3600] gives 02:30 local time, which is [now + 7200 s].
    And with [expires_in = 1000000000000001] the product by 1000 is rounded
    to a double and the date is invalid. *)
Lemma C1_expiration_counterexample :
  (ClientCredentialsConnection.tokenExpiration
     (this (snd (ClientCredentialsConnection.parseTokenResponse 3600 Date.utc Samples.clock
                   None (Some Samples.token_0) (Samples.cc_waiting Samples.conn_inline))))
   = Some (Num (Samples.clock + 1000 * 3600))
   /\ ClientCredentialsConnection.tokenExpiration
        (this (snd (ClientCredentialsConnection.parseTokenResponse 3600 Date.utc
                      Samples.clock None (Some Samples.token_0)
                      (Samples.cc_waiting Samples.conn_inline))))
      <> Some (Num (Samples.clock + 1000 * 0))
   /\ ClientCredentialsConnection.tokenExpirationMs
        (this (snd (ClientCredentialsConnection.parseTokenResponse 3600 Date.utc
                      Samples.clock None (Some Samples.token_0)
                      (Samples.cc_waiting Samples.conn_inline))))
      <> Some (Int (0 * 1000)))
  /\ (ClientCredentialsConnection.tokenExpiration
        (this (snd (ClientCredentialsConnection.parseTokenResponse 3600 Date.utc
                      Samples.clock None (Some Cases.token_half)
                      (Samples.cc_waiting Samples.conn_inline))))
      = Some (Num Samples.clock)
      /\ AuthorizationCodeConnection.tokenExpiration
           (this (snd (AuthorizationCodeConnection.parseTokenResponse 3600 Date.utc
                         Samples.clock None (Some Cases.token_half)
                         (Samples.ac_waiting Samples.conn_inline))))
         = Some (Num Samples.clock)
      /\ Num Samples.clock <> Num (Samples.clock + 500))
  /\ (ClientCredentialsConnection.tokenExpiration
        (this (snd (ClientCredentialsConnection.parseTokenResponse 3600 Cases.new_york_2023
                      Cases.clock_before_change None (Some Samples.token_3600)
                      (Samples.cc_waiting Samples.conn_inline))))
      = Some (Num (Cases.clock_before_change + 1000 * 7200))
      /\ AuthorizationCodeConnection.tokenExpiration
           (this (snd (AuthorizationCodeConnection.parseTokenResponse 3600
                         Cases.new_york_2023 Cases.clock_before_change None
                         (Some Samples.token_3600)
                         (Samples.ac_waiting Samples.conn_inline))))
         = Some (Num (Cases.clock_before_change + 1000 * 7200))
      /\ Num (Cases.clock_before_change + 1000 * 7200)
         <> Num (Cases.clock_before_change + 1000 * 3600))
  /\ (ClientCredentialsConnection.tokenExpirationMs
        (this (snd (ClientCredentialsConnection.parseTokenResponse 3600 Date.utc
                      Samples.clock None (Some Cases.token_huge)
                      (Samples.cc_waiting Samples.conn_inline))))
      = Some (Int 1000000000000001024)
      /\ Int 1000000000000001024 <> Int (1000000000000001 * 1000)
      /\ ClientCredentialsConnection.tokenExpiration
           (this (snd (ClientCredentialsConnection.parseTokenResponse 3600 Date.utc
                         Samples.clock None (Some Cases.token_huge)
                         (Samples.cc_waiting Samples.conn_inline))))
         = Some Invalid).
Proof. vm_compute. repeat split; discriminate. Qed.

(** C1 (amended): for a successful response with a usable access_token and
    [expires_in] a whole number [N] of seconds, on a host whose offset from
    UTC at the local time [N] seconds ahead is the one in force now, with
    the clock, the offset and [N] small enough for every intermediate value
    to be an integer a double holds exactly, and [now + N s] a valid Date:
    the client-credentials handler, when [N <> 0], stores
    [tokenExpiration = now + N s] and [tokenExpirationMs = N * 1000];
    the authorization-code handler, when the seconds of the local time
    plus [N] are not zero (so for every positive [N]), stores
    [tokenExpiration = now + N s]; and no later invocation that brings no
    new usable token changes what was stored. *)
Theorem C1_expiration_from_expires_in :
  forall (conn : ADPAPIConnection) (fs : gmap string string)
         (defaultexpiration : Z) (tza : Date.zone) (now N : Z) (token : Token),
    truthy (access_token token) = true ->
    expires_in token = Some (Int N) ->
    Z.abs now + 2 * Z.abs (tza now true) + 1000 * Z.abs N + 3 * Date.msPerDay <= 2 ^ 53 ->
    tza (now + tza now true + 1000 * N) false = tza now true ->
    Z.abs (now + 1000 * N) <= Date.maxTime ->
    (N <> 0 ->
     forall (w : world ClientCredentialsConnection.Instance)
            (later : list ClientCredentialsRun.invocation),
       Forall (fun i => ClientCredentialsRun.brings_token i = false) later ->
       ClientCredentialsConnection.tokenExpiration
         (this (ClientCredentialsRun.run conn fs defaultexpiration tza later
                  (snd (ClientCredentialsConnection.parseTokenResponse
                          defaultexpiration tza now None (Some token) w))))
       = Some (Num (now + 1000 * N))
       /\ ClientCredentialsConnection.tokenExpirationMs
            (this (ClientCredentialsRun.run conn fs defaultexpiration tza later
                     (snd (ClientCredentialsConnection.parseTokenResponse
                             defaultexpiration tza now None (Some token) w))))
          = Some (Int (N * 1000)))
    /\
    (Date.SecFromTime (now + tza now true) + N <> 0 ->
     forall (w : world AuthorizationCodeConnection.Instance)
            (later : list AuthorizationCodeRun.invocation),
       Forall (fun i => AuthorizationCodeRun.brings_token i = false) later ->
       AuthorizationCodeConnection.tokenExpiration
         (this (AuthorizationCodeRun.run conn fs defaultexpiration tza later
                  (snd (AuthorizationCodeConnection.parseTokenResponse
                          defaultexpiration tza now None (Some token) w))))
       = Some (Num (now + 1000 * N))).
Proof.
  intros conn fs dflt tza now N token Ht HN Hsafe Hzone Hrange.
  assert (Hclip : Date.TimeClip
                    (Int (now + tza now true + 1000 * N
                          - tza (now + tza now true + 1000 * N) false))
                  = Num (now + 1000 * N)).
  { rewrite Hzone, TimeClip_int.
    replace (now + tza now true + 1000 * N - tza now true) with (now + 1000 * N) by lia.
    destruct (Z.leb_spec (Z.abs (now + 1000 * N)) Date.maxTime); [reflexivity | lia]. }
  split.
  - intros Hnz w later Hlater.
    destruct (cc_run_keeps_expiration conn fs dflt tza later
                (snd (ClientCredentialsConnection.parseTokenResponse
                        dflt tza now None (Some token) w)) Hlater) as [K1 K2].
    rewrite K1, K2.
    destruct (cc_parse_with_token dflt tza now None token w Ht) as [E1 E2].
    rewrite E1, E2, HN. cbn [to_number]. rewrite num_or_int by exact Hnz.
    destruct (cc_expiration_int tza now N) as [M D].
    { rewrite Hzone. unfold Date.msPerDay in *. lia. }
    rewrite D, M, Hclip. split; reflexivity.
  - intros Hnz w later Hlater.
    rewrite (ac_run_keeps_expiration conn fs dflt tza later _ Hlater).
    rewrite (ac_parse_with_token dflt tza now token w Ht), HN.
    cbn [to_number].
    pose proof (field_ranges (now + tza now true)) as (_ & _ & Rs & _).
    unfold Date.msPerDay in Hsafe.
    rewrite getSeconds_int, num_add_int by lia.
    rewrite num_or_int by exact Hnz.
    rewrite setSeconds_plus by (rewrite Hzone; unfold Date.msPerDay; lia).
    rewrite Hclip. reflexivity.
Qed.

Lemma C1_expiration_from_expires_in_witness :
  ClientCredentialsConnection.tokenExpiration
    (this (ClientCredentialsRun.run Samples.conn_inline Samples.disk 3600 Date.utc
             [ClientCredentialsRun.Connect (Some 8%nat)]
             (snd (ClientCredentialsConnection.parseTokenResponse 3600 Date.utc
                     Samples.clock None (Some Samples.token_3600)
                     (Samples.cc_waiting Samples.conn_inline)))))
  = Some (Num (Samples.clock + 1000 * 3600))
  /\ AuthorizationCodeConnection.tokenExpiration
       (this (AuthorizationCodeRun.run Samples.conn_inline Samples.disk 3600 Date.utc
                [AuthorizationCodeRun.Refresh (JStr "r1") (Some 8%nat)]
                (snd (AuthorizationCodeConnection.parseTokenResponse 3600 Date.utc
                        Samples.clock None (Some Samples.token_3600)
                        (Samples.ac_waiting Samples.conn_inline)))))
     = Some (Num (Samples.clock + 1000 * 3600)).
Proof.
  destruct (C1_expiration_from_expires_in Samples.conn_inline Samples.disk 3600 Date.utc
              Samples.clock 3600 Samples.token_3600) as [Hcc Hac].
  - reflexivity.
  - reflexivity.
  - vm_compute. discriminate.
  - reflexivity.
  - vm_compute. discriminate.
  - split.
    + apply Hcc.
      * lia.
      * repeat constructor.
    + apply Hac.
      * vm_compute. discriminate.
      * repeat constructor.
Defined.

(** What [expires_in] being omitted gives in each class, while every
    intermediate value is an integer a double holds exactly. *)
Lemma cc_omitted_expires_in (defaultexpiration : Z) (tza : Date.zone) (now : Z)
    (token : Token) (w : world ClientCredentialsConnection.Instance) :
  truthy (access_token token) = true ->
  expires_in token = None ->
  Z.abs now + Z.abs (tza now true) + 1000 * Z.abs defaultexpiration
  + Z.abs (tza (now + tza now true + 1000 * defaultexpiration) false)
  + 3 * Date.msPerDay <= 2 ^ 53 ->
  ClientCredentialsConnection.tokenExpiration
    (this (snd (ClientCredentialsConnection.parseTokenResponse
                  defaultexpiration tza now None (Some token) w)))
  = Some (Date.TimeClip
            (Int (now + tza now true + 1000 * defaultexpiration
                  - tza (now + tza now true + 1000 * defaultexpiration) false))).
Proof.
  intros Ht He Hsafe.
  destruct (cc_parse_with_token defaultexpiration tza now None token w Ht) as [E _].
  rewrite E, He. cbn [to_number]. unfold num_or. cbn [num_truthy].
  rewrite of_Z_int by (unfold Date.msPerDay in Hsafe; lia).
  destruct (cc_expiration_int tza now defaultexpiration Hsafe) as [_ D].
  rewrite D. reflexivity.
Qed.

Lemma ac_omitted_expires_in (defaultexpiration : Z) (tza : Date.zone) (now : Z)
    (token : Token) (w : world AuthorizationCodeConnection.Instance) :
  truthy (access_token token) = true ->
  expires_in token = None ->
  Z.abs now + Z.abs (tza now true) + 1000 * Z.abs defaultexpiration
  + Z.abs (tza (now + tza now true
                + 1000 * (defaultexpiration - Date.SecFromTime (now + tza now true))) false)
  + 2 * Date.msPerDay <= 2 ^ 53 ->
  AuthorizationCodeConnection.tokenExpiration
    (this (snd (AuthorizationCodeConnection.parseTokenResponse
                  defaultexpiration tza now None (Some token) w)))
  = Some (Date.TimeClip
            (Int (now + tza now true
                  + 1000 * (defaultexpiration - Date.SecFromTime (now + tza now true))
                  - tza (now + tza now true
                         + 1000 * (defaultexpiration
                                   - Date.SecFromTime (now + tza now true))) false))).
Proof.
  intros Ht He Hsafe.
  rewrite (ac_parse_with_token defaultexpiration tza now token w Ht), He.
  cbn [to_number]. unfold Date.msPerDay in Hsafe.
  rewrite getSeconds_int by lia.
  change (num_add (Int ?s) NaN) with NaN. unfold num_or. cbn [num_truthy].
  rewrite of_Z_int by lia.
  rewrite setSeconds_int by (unfold Date.msPerDay; lia). reflexivity.
Qed.

(** C2 at the failing input: the response omits [expires_in], the clock
    reads 22:13:50.500 and the default is 3600 seconds.  The
    authorization-code handler sets the seconds field to 3600, which is
    [now - 50 s + 3600 s]; the claim says [now + 3600 s], which is what the
    client-credentials handler stores. *)
Theorem C2_omitted_expires_in_authorization_code :
  AuthorizationCodeConnection.tokenExpiration
    (this (snd (AuthorizationCodeConnection.parseTokenResponse 3600 Date.utc Samples.clock None
                  (Some Samples.token_no_expiry) (Samples.ac_waiting Samples.conn_inline))))
  = Some (Num (Samples.clock - 1000 * 50 + 1000 * 3600))
  /\ AuthorizationCodeConnection.tokenExpiration
       (this (snd (AuthorizationCodeConnection.parseTokenResponse 3600 Date.utc Samples.clock None
                     (Some Samples.token_no_expiry) (Samples.ac_waiting Samples.conn_inline))))
     <> Some (Num (Samples.clock + 1000 * 3600))
  /\ ClientCredentialsConnection.tokenExpiration
       (this (snd (ClientCredentialsConnection.parseTokenResponse 3600 Date.utc Samples.clock None
                     (Some Samples.token_no_expiry) (Samples.cc_waiting Samples.conn_inline))))
     = Some (Num (Samples.clock + 1000 * 3600)).
Proof.
  split; [|split].
  - rewrite ac_omitted_expires_in by (try reflexivity; vm_compute; discriminate).
    reflexivity.
  - rewrite ac_omitted_expires_in by (try reflexivity; vm_compute; discriminate).
    vm_compute. discriminate.
  - rewrite cc_omitted_expires_in by (try reflexivity; vm_compute; discriminate).
    reflexivity.
Qed.

(** ** The response handler and the stored callback *)

Lemma called_app (l1 l2 : list event) : called (l1 ++ l2) = called l1 ++ called l2.
Proof. apply omap_app. Qed.

Lemma posted_app (l1 l2 : list event) : posted (l1 ++ l2) = posted l1 ++ posted l2.
Proof. apply omap_app. Qed.

Lemma loaded_app (l1 l2 : list event) : loaded (l1 ++ l2) = loaded l1 ++ loaded l2.
Proof. apply omap_app. Qed.

(** The client-credentials handler never raises; with a function stored it
    calls it once, with the exception built from the transport error (if
    any) and the token as received, and deletes the property. *)
Lemma cc_parse_delivers (defaultexpiration : Z) (tza : Date.zone) (now : Z) (err : option TransportError)
    (token : option Token) (w : world ClientCredentialsConnection.Instance) (f : nat) :
  ClientCredentialsConnection.cb (this w) = Some f ->
  fst (ClientCredentialsConnection.parseTokenResponse defaultexpiration tza now err token w)
  = Done tt
  /\ called (log (snd (ClientCredentialsConnection.parseTokenResponse
                         defaultexpiration tza now err token w)))
     = called (log w)
       ++ [(f,
            match err with
            | Some e =>
                ConnectionException
                  {| eo_statusCode := statusCode e;
                     oauthResponse := match response e with
                                      | Some r => body r
                                      | None => JUndefined
                                      end |}
            | None => NoError
            end,
            TokenArg token)]
  /\ ClientCredentialsConnection.cb
       (this (snd (ClientCredentialsConnection.parseTokenResponse
                     defaultexpiration tza now err token w)))
     = None.
Proof.
  intros Hcb. unfold ClientCredentialsConnection.parseTokenResponse.
  destruct err as [[sc [r|]]|], token as [t|];
    try destruct (truthy (access_token t));
    cbn [negb]; exec; try rewrite cc_setTokenExpiration_eq; exec;
    cbn [ClientCredentialsConnection.cb ClientCredentialsConnection.set_tokenExpiration
         ClientCredentialsConnection.set_tokenExpirationMs];
    rewrite Hcb; exec; rewrite ?called_app; cbn [called omap list_omap app];
    rewrite ?app_nil_r; repeat split; reflexivity.
Qed.

(** The authorization-code handler, when the transport error (if any)
    carries a response: it calls the stored function once and leaves the
    property in place. *)
Lemma ac_parse_delivers (defaultexpiration : Z) (tza : Date.zone) (now : Z) (err : option TransportError)
    (token : option Token) (w : world AuthorizationCodeConnection.Instance) (f : nat) :
  AuthorizationCodeConnection.cb (this w) = Some f ->
  (forall e, err = Some e -> response e <> None) ->
  fst (AuthorizationCodeConnection.parseTokenResponse defaultexpiration tza now err token w)
  = Done tt
  /\ called (log (snd (AuthorizationCodeConnection.parseTokenResponse
                         defaultexpiration tza now err token w)))
     = called (log w)
       ++ [(f,
            match err with
            | Some e =>
                ConnectionException
                  {| eo_statusCode := statusCode e;
                     oauthResponse := match response e with
                                      | Some r => body r
                                      | None => JUndefined
                                      end |}
            | None => NoError
            end,
            TokenArg token)]
  /\ AuthorizationCodeConnection.cb
       (this (snd (AuthorizationCodeConnection.parseTokenResponse
                     defaultexpiration tza now err token w)))
     = Some f.
Proof.
  intros Hcb Hresp. unfold AuthorizationCodeConnection.parseTokenResponse.
  destruct err as [[sc [r|]]|]; [| exfalso; eapply Hresp; reflexivity |];
    destruct token as [t|];
    try destruct (truthy (access_token t));
    cbn [negb]; exec; try rewrite ac_setTokenExpiration_eq; exec;
    cbn [AuthorizationCodeConnection.cb AuthorizationCodeConnection.set_tokenExpiration];
    rewrite Hcb; exec; rewrite ?called_app; cbn [called omap list_omap app];
    rewrite ?app_nil_r; repeat split; first [reflexivity | exact Hcb].
Qed.

(** C3 at the failing input: a transport error that carries no response
    (a network-level failure).  The authorization-code handler reads
    [response.body] of the missing response and raises a TypeError: the
    stored callback is not called and receives no ConnectionException.  The
    client-credentials handler, on the same error, delivers the exception
    with the error's statusCode. *)
Theorem C3_missing_response_authorization_code :
  fst (AuthorizationCodeConnection.parseTokenResponse 3600 Date.utc Samples.clock
         (Some Samples.err_no_response) None (Samples.ac_waiting Samples.conn_inline))
  = Thrown TypeError
  /\ called (log (snd (AuthorizationCodeConnection.parseTokenResponse 3600 Date.utc Samples.clock
                         (Some Samples.err_no_response) None
                         (Samples.ac_waiting Samples.conn_inline))))
     = []
  /\ called (log (snd (ClientCredentialsConnection.parseTokenResponse 3600 Date.utc Samples.clock
                         (Some Samples.err_no_response) None
                         (Samples.cc_waiting Samples.conn_inline))))
     = [(7%nat,
         ConnectionException {| eo_statusCode := statusCode Samples.err_no_response;
                                oauthResponse := JUndefined |},
         TokenArg None)].
Proof. repeat split; reflexivity. Qed.

(** C6 at the failing input: a successful response on an
    authorization-code connection.  The stored callback is called once,
    but the handler has no [delete this.cb]: the reference is still stored
    afterwards.  The client-credentials handler discards it. *)
Theorem C6_callback_kept_authorization_code :
  called (log (snd (AuthorizationCodeConnection.parseTokenResponse 3600 Date.utc Samples.clock None
                      (Some Samples.token_3600) (Samples.ac_waiting Samples.conn_inline))))
  = [(7%nat, NoError, TokenArg (Some Samples.token_3600))]
  /\ AuthorizationCodeConnection.cb
       (this (snd (AuthorizationCodeConnection.parseTokenResponse 3600 Date.utc Samples.clock None
                     (Some Samples.token_3600) (Samples.ac_waiting Samples.conn_inline))))
     = Some 7%nat
  /\ ClientCredentialsConnection.cb
       (this (snd (ClientCredentialsConnection.parseTokenResponse 3600 Date.utc Samples.clock None
                     (Some Samples.token_3600) (Samples.cc_waiting Samples.conn_inline))))
     = None.
Proof. repeat split; reflexivity. Qed.

(** C7: a transport success whose token is absent or has no usable
    access_token, with a callback function stored.  Neither handler raises
    and neither builds an exception: the only events are the debug message
    and the callback called with [(undefined, token)], the token passed
    as received, and the stored expiration is left as it was. *)
Theorem C7_soft_token_absence :
  forall (defaultexpiration : Z) (tza : Date.zone) (now : Z) (token : option Token) (f : nat),
    no_access_token token = true ->
    (forall w : world ClientCredentialsConnection.Instance,
       ClientCredentialsConnection.cb (this w) = Some f ->
       fst (ClientCredentialsConnection.parseTokenResponse
              defaultexpiration tza now None token w) = Done tt
       /\ log (snd (ClientCredentialsConnection.parseTokenResponse
                      defaultexpiration tza now None token w))
          = log w ++ [EvDebug DbgNoToken; EvCallback f NoError (TokenArg token)]
       /\ ClientCredentialsConnection.tokenExpiration
            (this (snd (ClientCredentialsConnection.parseTokenResponse
                          defaultexpiration tza now None token w)))
          = ClientCredentialsConnection.tokenExpiration (this w)
       /\ ClientCredentialsConnection.tokenExpirationMs
            (this (snd (ClientCredentialsConnection.parseTokenResponse
                          defaultexpiration tza now None token w)))
          = ClientCredentialsConnection.tokenExpirationMs (this w))
    /\
    (forall w : world AuthorizationCodeConnection.Instance,
       AuthorizationCodeConnection.cb (this w) = Some f ->
       fst (AuthorizationCodeConnection.parseTokenResponse
              defaultexpiration tza now None token w) = Done tt
       /\ log (snd (AuthorizationCodeConnection.parseTokenResponse
                      defaultexpiration tza now None token w))
          = log w ++ [EvDebug DbgNoToken; EvCallback f NoError (TokenArg token)]
       /\ AuthorizationCodeConnection.tokenExpiration
            (this (snd (AuthorizationCodeConnection.parseTokenResponse
                          defaultexpiration tza now None token w)))
          = AuthorizationCodeConnection.tokenExpiration (this w)).
Proof.
  intros dflt tza now token f Hno. split; intros w Hcb.
  - unfold ClientCredentialsConnection.parseTokenResponse.
    destruct token as [t|]; cbn [no_access_token] in Hno; try rewrite Hno;
      exec; rewrite Hcb; exec; rewrite <- app_assoc; repeat split; reflexivity.
  - unfold AuthorizationCodeConnection.parseTokenResponse.
    destruct token as [t|]; cbn [no_access_token] in Hno; try rewrite Hno;
      exec; rewrite Hcb; exec; rewrite <- app_assoc; repeat split; reflexivity.
Qed.

Lemma C7_soft_token_absence_witness :
  log (snd (ClientCredentialsConnection.parseTokenResponse 3600 Date.utc Samples.clock None
              (Some Samples.token_empty) (Samples.cc_waiting Samples.conn_inline)))
  = [EvDebug DbgNoToken; EvCallback 7 NoError (TokenArg (Some Samples.token_empty))]
  /\ log (snd (AuthorizationCodeConnection.parseTokenResponse 3600 Date.utc Samples.clock None
                 None (Samples.ac_waiting Samples.conn_inline)))
     = [EvDebug DbgNoToken; EvCallback 7 NoError (TokenArg None)].
Proof.
  split.
  - destruct (C7_soft_token_absence 3600 Date.utc Samples.clock (Some Samples.token_empty) 7
                ltac:(reflexivity)) as [Hcc _].
    destruct (Hcc (Samples.cc_waiting Samples.conn_inline) ltac:(reflexivity))
      as (_ & Hlog & _).
    exact Hlog.
  - destruct (C7_soft_token_absence 3600 Date.utc Samples.clock None 7
                ltac:(reflexivity)) as [_ Hac].
    destruct (Hac (Samples.ac_waiting Samples.conn_inline) ltac:(reflexivity))
      as (_ & Hlog & _).
    exact Hlog.
Defined.

(** C9: a transport error that carries no response object, on a
    client-credentials connection with a callback function stored.  The
    handler does not raise; it builds the ConnectionException with the
    error's statusCode and an undefined oauthResponse, and calls the stored
    callback with it, once. *)
Theorem C9_missing_response_tolerated :
  forall (defaultexpiration : Z) (tza : Date.zone) (now : Z) (e : TransportError) (token : option Token)
         (f : nat) (w : world ClientCredentialsConnection.Instance),
    response e = None ->
    ClientCredentialsConnection.cb (this w) = Some f ->
    fst (ClientCredentialsConnection.parseTokenResponse
           defaultexpiration tza now (Some e) token w) = Done tt
    /\ called (log (snd (ClientCredentialsConnection.parseTokenResponse
                           defaultexpiration tza now (Some e) token w)))
       = called (log w)
         ++ [(f,
              ConnectionException {| eo_statusCode := statusCode e;
                                     oauthResponse := JUndefined |},
              TokenArg token)].
Proof.
  intros dflt tza now e token f w Hresp Hcb.
  destruct (cc_parse_delivers dflt tza now (Some e) token w f Hcb) as (Hd & Hc & _).
  rewrite Hresp in Hc. split; assumption.
Qed.

Lemma C9_missing_response_tolerated_witness :
  fst (ClientCredentialsConnection.parseTokenResponse 3600 Date.utc Samples.clock
         (Some Samples.err_no_response) None (Samples.cc_waiting Samples.conn_inline))
  = Done tt
  /\ called (log (snd (ClientCredentialsConnection.parseTokenResponse 3600 Date.utc Samples.clock
                         (Some Samples.err_no_response) None
                         (Samples.cc_waiting Samples.conn_inline))))
     = [(7%nat,
         ConnectionException {| eo_statusCode := JUndefined; oauthResponse := JUndefined |},
         TokenArg None)].
Proof.
  apply (C9_missing_response_tolerated 3600 Date.utc Samples.clock Samples.err_no_response None 7
           (Samples.cc_waiting Samples.conn_inline)); reflexivity.
Defined.

(** ** The certificate step *)

Lemma no_cert_paths (conn : ADPAPIConnection) :
  truthy_str (sslCertPath conn) = false ->
  truthy_str (sslKeyPath conn) = false ->
  List.filter truthy_str [sslCertPath conn; sslKeyPath conn] = [].
Proof. intros H1 H2. cbn [List.filter]. rewrite H1, H2. reflexivity. Qed.

(** C5, as stated, fails: with no path and no inline string configured,
    [connect] and [refresh] do not reach the token request; building the
    payload raises a TypeError at the undefined certificate path, and
    nothing is posted. *)
Lemma C5_no_material_counterexample :
  (fst (ClientCredentialsConnection.connect Cases.conn_bare Samples.disk (Some 7%nat)
          (Samples.cc_start Cases.conn_bare))
   = Thrown TypeError
   /\ posted (log (snd (ClientCredentialsConnection.connect Cases.conn_bare Samples.disk
                          (Some 7%nat) (Samples.cc_start Cases.conn_bare))))
      = [])
  /\ (fst (AuthorizationCodeConnection.connect Cases.conn_bare Samples.disk (Some 7%nat)
             (Samples.ac_start Cases.conn_bare))
      = Thrown TypeError
      /\ posted (log (snd (AuthorizationCodeConnection.connect Cases.conn_bare Samples.disk
                             (Some 7%nat) (Samples.ac_start Cases.conn_bare))))
         = [])
  /\ (fst (AuthorizationCodeConnection.refresh Cases.conn_bare Samples.disk (JStr "r1")
             (Some 7%nat) (Samples.ac_start Cases.conn_bare))
      = Thrown TypeError
      /\ posted (log (snd (AuthorizationCodeConnection.refresh Cases.conn_bare Samples.disk
                             (JStr "r1") (Some 7%nat) (Samples.ac_start Cases.conn_bare))))
         = []).
Proof. repeat split; reflexivity. Qed.

(** C5 (amended): with neither sslCertPath nor sslKeyPath configured,
    [getCerts] is [getAccessToken] in both classes and [connect] and
    [refresh] never call the certificate loader.  What follows depends on
    the TLS material alone: when its options can be built, which is the
    case whenever sslCertString and sslKeyString are both non-empty, the
    call returns having posted exactly one request; when they cannot, the
    call raises the error of the failed file read, with the callback
    stored and nothing posted. *)
Theorem C5_no_paths_skip_loader :
  forall (conn : ADPAPIConnection) (fs : gmap string string),
    truthy_str (sslCertPath conn) = false ->
    truthy_str (sslKeyPath conn) = false ->
    (forall w, ClientCredentialsConnection.getCerts conn fs w
               = ClientCredentialsConnection.getAccessToken conn fs w)
    /\ (forall rt w, AuthorizationCodeConnection.getCerts conn fs rt w
                     = AuthorizationCodeConnection.getAccessToken conn fs rt w)
    /\ (forall f w,
          loaded (log (snd (ClientCredentialsConnection.connect conn fs f w)))
          = loaded (log w))
    /\ (forall f w,
          loaded (log (snd (AuthorizationCodeConnection.connect conn fs f w)))
          = loaded (log w))
    /\ (forall rt f w,
          loaded (log (snd (AuthorizationCodeConnection.refresh conn fs rt f w)))
          = loaded (log w))
    /\ (truthy_str (sslCertString conn) = true ->
        truthy_str (sslKeyString conn) = true ->
        exists a, buildAgentOptions fs conn = Done a)
    /\ (forall f w,
          match buildAgentOptions fs conn with
          | Done _ =>
              exists o,
                ClientCredentialsConnection.connect conn fs f w
                = (Done tt,
                   {| this := ClientCredentialsConnection.set_cb f (this w);
                      log := log w
                             ++ [EvDebug (DbgInitializing
                                            (ClientCredentialsConnection.this_granttype
                                               (this w)));
                                 EvPost o] |})
          | Thrown e =>
              ClientCredentialsConnection.connect conn fs f w
              = (Thrown e,
                 {| this := ClientCredentialsConnection.set_cb f (this w);
                    log := log w
                           ++ [EvDebug (DbgInitializing
                                          (ClientCredentialsConnection.this_granttype
                                             (this w)))] |})
          end)
    /\ (forall f w,
          match buildAgentOptions fs conn with
          | Done _ =>
              exists o,
                AuthorizationCodeConnection.connect conn fs f w
                = (Done tt,
                   {| this := AuthorizationCodeConnection.set_cb f (this w);
                      log := log w
                             ++ [EvDebug (DbgInitializing
                                            (AuthorizationCodeConnection.this_granttype
                                               (this w)));
                                 EvPost o] |})
          | Thrown e =>
              AuthorizationCodeConnection.connect conn fs f w
              = (Thrown e,
                 {| this := AuthorizationCodeConnection.set_cb f (this w);
                    log := log w
                           ++ [EvDebug (DbgInitializing
                                          (AuthorizationCodeConnection.this_granttype
                                             (this w)))] |})
          end)
    /\ (forall rt f w,
          match buildAgentOptions fs conn with
          | Done _ =>
              exists o,
                AuthorizationCodeConnection.refresh conn fs rt f w
                = (Done tt,
                   {| this := AuthorizationCodeConnection.set_cb f (this w);
                      log := log w
                             ++ [EvDebug (DbgInitializingRefresh
                                            (AuthorizationCodeConnection.this_granttype
                                               (this w)));
                                 EvPost o] |})
          | Thrown e =>
              AuthorizationCodeConnection.refresh conn fs rt f w
              = (Thrown e,
                 {| this := AuthorizationCodeConnection.set_cb f (this w);
                    log := log w
                           ++ [EvDebug (DbgInitializingRefresh
                                          (AuthorizationCodeConnection.this_granttype
                                             (this w)))] |})
          end).
Proof.
  intros conn fs H1 H2.
  assert (Hcc : forall w, ClientCredentialsConnection.getCerts conn fs w
                          = ClientCredentialsConnection.getAccessToken conn fs w).
  { intros w. unfold ClientCredentialsConnection.getCerts.
    rewrite (no_cert_paths conn H1 H2). reflexivity. }
  assert (Hac : forall rt w, AuthorizationCodeConnection.getCerts conn fs rt w
                             = AuthorizationCodeConnection.getAccessToken conn fs rt w).
  { intros rt w. unfold AuthorizationCodeConnection.getCerts.
    rewrite (no_cert_paths conn H1 H2). reflexivity. }
  split; [exact Hcc|]. split; [exact Hac|].
  split; [|split; [|split; [|split; [|split; [|split]]]]].
  - intros f w. unfold ClientCredentialsConnection.connect. exec. rewrite Hcc.
    unfold ClientCredentialsConnection.getAccessToken,
      ClientCredentialsConnection.buildTokenRequestBody. exec.
    destruct (buildAgentOptions fs conn); exec; rewrite ?loaded_app;
      cbn [loaded omap list_omap]; rewrite ?app_nil_r; reflexivity.
  - intros f w. unfold AuthorizationCodeConnection.connect. exec. rewrite Hac.
    unfold AuthorizationCodeConnection.getAccessToken,
      AuthorizationCodeConnection.buildTokenRequestBody. cbn [truthy]. exec.
    destruct (buildAgentOptions fs conn); exec; rewrite ?loaded_app;
      cbn [loaded omap list_omap]; rewrite ?app_nil_r; reflexivity.
  - intros rt f w. unfold AuthorizationCodeConnection.refresh. exec. rewrite Hac.
    unfold AuthorizationCodeConnection.getAccessToken,
      AuthorizationCodeConnection.buildTokenRequestBody,
      AuthorizationCodeConnection.buildRefreshTokenRequestBody.
    destruct (truthy rt); exec;
      destruct (buildAgentOptions fs conn); exec; rewrite ?loaded_app;
      cbn [loaded omap list_omap]; rewrite ?app_nil_r; reflexivity.
  - intros Tc Tk. unfold buildAgentOptions, string_or_file.
    destruct (sslCertString conn) as [c|]; [|discriminate].
    destruct (sslKeyString conn) as [k|]; [|discriminate].
    rewrite Tc, Tk. eauto.
  - intros f w. unfold ClientCredentialsConnection.connect. exec. rewrite Hcc.
    unfold ClientCredentialsConnection.getAccessToken,
      ClientCredentialsConnection.buildTokenRequestBody. exec.
    destruct (buildAgentOptions fs conn); exec; [eexists; rewrite <- app_assoc|];
      reflexivity.
  - intros f w. unfold AuthorizationCodeConnection.connect. exec. rewrite Hac.
    unfold AuthorizationCodeConnection.getAccessToken,
      AuthorizationCodeConnection.buildTokenRequestBody. cbn [truthy]. exec.
    destruct (buildAgentOptions fs conn); exec; [eexists; rewrite <- app_assoc|];
      reflexivity.
  - intros rt f w. unfold AuthorizationCodeConnection.refresh. exec. rewrite Hac.
    unfold AuthorizationCodeConnection.getAccessToken,
      AuthorizationCodeConnection.buildTokenRequestBody,
      AuthorizationCodeConnection.buildRefreshTokenRequestBody.
    destruct (truthy rt); exec;
      destruct (buildAgentOptions fs conn); exec; [eexists; rewrite <- app_assoc| |
                                                    eexists; rewrite <- app_assoc|];
      reflexivity.
Qed.

Lemma C5_no_paths_skip_loader_witness :
  loaded (log (snd (ClientCredentialsConnection.connect Samples.conn_inline Samples.disk
                      (Some 7%nat) (Samples.cc_start Samples.conn_inline))))
  = []
  /\ loaded (log (snd (AuthorizationCodeConnection.refresh Samples.conn_inline Samples.disk
                         (JStr "r1") (Some 7%nat) (Samples.ac_start Samples.conn_inline))))
     = []
  /\ exists a, buildAgentOptions Samples.disk Samples.conn_inline = Done a.
Proof.
  destruct (C5_no_paths_skip_loader Samples.conn_inline Samples.disk)
    as (_ & _ & Hcc & _ & Href & Hbuild & _).
  - reflexivity.
  - reflexivity.
  - split; [|split].
    + apply (Hcc (Some 7%nat) (Samples.cc_start Samples.conn_inline)).
    + apply (Href (JStr "r1") (Some 7%nat) (Samples.ac_start Samples.conn_inline)).
    + apply Hbuild; reflexivity.
Defined.

(** ** Request payloads *)

(** [inline || fs.readFileSync(path)] yields the inline string when it is
    truthy, and otherwise the content of the file at the path. *)
Lemma string_or_file_Done (fs : gmap string string) (inline path : option string)
    (m : material) :
  string_or_file fs inline path = Done m ->
  (truthy_str inline = true /\ inline = Some match m with Inline s | Buffer s => s end
   /\ exists s, m = Inline s)
  \/ (truthy_str inline = false
      /\ exists p c, path = Some p /\ fs !! p = Some c /\ m = Buffer c).
Proof.
  unfold string_or_file, readFileSync.
  destruct inline as [s|].
  - destruct (truthy_str (Some s)) eqn:E.
    + intros [= <-]. left. eauto.
    + destruct path as [p|]; [|discriminate].
      destruct (fs !! p) as [c|] eqn:Ep; [|discriminate].
      intros [= <-]. right. eauto 6.
  - destruct path as [p|]; [|discriminate].
    destruct (fs !! p) as [c|] eqn:Ep; [|discriminate].
    intros [= <-]. right. eauto 6.
Qed.

Lemma buildAgentOptions_Done (fs : gmap string string) (conn : ADPAPIConnection)
    (a : AgentOptions) :
  buildAgentOptions fs conn = Done a ->
  exists c k,
    string_or_file fs (sslCertString conn) (sslCertPath conn) = Done c
    /\ string_or_file fs (sslKeyString conn) (sslKeyPath conn) = Done k
    /\ a = {| ca := [c]; key := k; cert := c |}.
Proof.
  unfold buildAgentOptions.
  destruct (string_or_file fs (sslCertString conn) (sslCertPath conn)) as [c|]; [|discriminate].
  destruct (string_or_file fs (sslKeyString conn) (sslKeyPath conn)) as [k|]; [|discriminate].
  intros [= <-]. eauto.
Qed.

(** Every payload a builder returns has its [agentOptions] from
    [buildAgentOptions], strict TLS verification off, and was built without
    touching the connection. *)
Lemma built_inv (conn : ADPAPIConnection) (fs : gmap string string) (p : Payload) :
  built conn fs p ->
  buildAgentOptions fs conn = Done (agentOptions p) /\ strictSSL p = false.
Proof.
  intros [w w' q H | w w' q H | rt w w' q H];
    [ unfold ClientCredentialsConnection.buildTokenRequestBody in H
    | unfold AuthorizationCodeConnection.buildTokenRequestBody in H
    | unfold AuthorizationCodeConnection.buildRefreshTokenRequestBody in H ];
    revert H; exec; destruct (buildAgentOptions fs conn) as [a|]; exec;
    intros [= <- _]; split; reflexivity.
Qed.

(** C8: in every payload of the three builders, [ca] and [cert] hold the
    inline sslCertString when one is supplied (a non-empty string) and
    otherwise the content of the file at sslCertPath; [key] holds
    sslKeyString when supplied and otherwise the content of the file at
    sslKeyPath, whatever the certificate came from; [strictSSL] is false. *)
Theorem C8_tls_material_resolution :
  forall (conn : ADPAPIConnection) (fs : gmap string string) (p : Payload),
    built conn fs p ->
    (forall s, sslCertString conn = Some s -> truthy_str (Some s) = true ->
       ca (agentOptions p) = [Inline s] /\ cert (agentOptions p) = Inline s)
    /\ (truthy_str (sslCertString conn) = false ->
        exists path content,
          sslCertPath conn = Some path /\ fs !! path = Some content
          /\ ca (agentOptions p) = [Buffer content]
          /\ cert (agentOptions p) = Buffer content)
    /\ (forall s, sslKeyString conn = Some s -> truthy_str (Some s) = true ->
          key (agentOptions p) = Inline s)
    /\ (truthy_str (sslKeyString conn) = false ->
        exists path content,
          sslKeyPath conn = Some path /\ fs !! path = Some content
          /\ key (agentOptions p) = Buffer content)
    /\ strictSSL p = false.
Proof.
  intros conn fs p Hb. destruct (built_inv conn fs p Hb) as [Ha Hs].
  destruct (buildAgentOptions_Done fs conn _ Ha) as (c & k & Hc & Hk & ->).
  cbn [ca key cert].
  apply string_or_file_Done in Hc, Hk.
  repeat split; try exact Hs.
  - destruct Hc as [(_ & E & s' & ->) | (F & _)]; rewrite H in *; congruence.
  - destruct Hc as [(_ & E & s' & ->) | (F & _)]; rewrite H in *; congruence.
  - intros F. destruct Hc as [(T & _) | (_ & q & c' & Hq & Hf & ->)]; [congruence|].
    eauto 6.
  - intros s Es Ts. destruct Hk as [(_ & E & s' & ->) | (F & _)]; rewrite Es in *; congruence.
  - intros F. destruct Hk as [(T & _) | (_ & q & c' & Hq & Hf & ->)]; [congruence|].
    eauto 6.
Qed.

Lemma C8_tls_material_resolution_witness :
  exists path content,
    sslCertPath Samples.conn_files = Some path /\ Samples.disk !! path = Some content
    /\ ca (agentOptions Samples.cc_payload_files) = [Buffer content]
    /\ cert (agentOptions Samples.cc_payload_files) = Buffer content.
Proof.
  refine (proj1 (proj2 (C8_tls_material_resolution Samples.conn_files Samples.disk
                          Samples.cc_payload_files _)) _).
  - apply built_client_credentials
      with (w := Samples.cc_waiting Samples.conn_files)
           (w' := Samples.cc_waiting Samples.conn_files).
    reflexivity.
  - reflexivity.
Defined.

(** C10: in every payload of the three builders, [ca] is a one-element
    array and its element is the [cert] of the same payload. *)
Theorem C10_ca_is_cert :
  forall (conn : ADPAPIConnection) (fs : gmap string string) (p : Payload),
    built conn fs p ->
    ca (agentOptions p) = [cert (agentOptions p)].
Proof.
  intros conn fs p Hb. destruct (built_inv conn fs p Hb) as [Ha _].
  destruct (buildAgentOptions_Done fs conn _ Ha) as (c & k & _ & _ & ->).
  reflexivity.
Qed.

Lemma C10_ca_is_cert_witness :
  ca (agentOptions Samples.cc_payload_files)
  = [cert (agentOptions Samples.cc_payload_files)].
Proof.
  apply (C10_ca_is_cert Samples.conn_files Samples.disk Samples.cc_payload_files).
  apply built_client_credentials
    with (w := Samples.cc_waiting Samples.conn_files)
         (w' := Samples.cc_waiting Samples.conn_files).
  reflexivity.
Defined.

(** ** The refresh request *)

(** With a truthy refresh token, [getAccessToken] posts the refresh payload
    when the TLS material resolves and raises what [readFileSync] raised
    when it does not. *)
Lemma ac_getAccessToken_refresh (conn : ADPAPIConnection) (fs : gmap string string)
    (rt : jsval) (w : world AuthorizationCodeConnection.Instance) :
  truthy rt = true ->
  AuthorizationCodeConnection.getAccessToken conn fs rt w
  = match buildAgentOptions fs conn with
    | Done a =>
        (Done tt,
         {| this := this w;
            log := log w
                   ++ [EvPost
                         {| requestDesc := "Authorization Code - Access Token Request";
                            url := tokenUrl conn;
                            payload :=
                              {| agentOptions := a; strictSSL := false; auth := None;
                                 form := {[ "grant_type" := JStr "refresh_token";
                                            "refresh_token" := rt;
                                            "client_id" := clientId conn;
                                            "client_secret" := clientSecret conn;
                                            "scope" := JStr "openid profile api" ]} |} |}] |})
    | Thrown e => (Thrown e, w)
    end.
Proof.
  intros Hrt. unfold AuthorizationCodeConnection.getAccessToken,
    AuthorizationCodeConnection.buildRefreshTokenRequestBody.
  rewrite Hrt. exec. destruct (buildAgentOptions fs conn); reflexivity.
Qed.

(** C4, as stated, fails: [refresh] called with an empty or a missing
    refresh token posts the initial authorization-code payload, with
    [grant_type] the connection's grant type, the authorization code in
    [code], and no [refresh_token] field. *)
Lemma C4_falsy_refresh_token_counterexample :
  (fun o => (form (payload o) !! "grant_type", form (payload o) !! "code",
             form (payload o) !! "refresh_token"))
    <$> posted (log (snd (AuthorizationCodeConnection.refresh Samples.conn_inline Samples.disk
                            (JStr EmptyString) (Some 7%nat)
                            (Samples.ac_start Samples.conn_inline))))
  = [(Some (JStr "authorization_code"), Some (JStr "code-42"), None)]
  /\ (fun o => (form (payload o) !! "grant_type", form (payload o) !! "code",
                form (payload o) !! "refresh_token"))
       <$> posted (log (snd (AuthorizationCodeConnection.refresh Samples.conn_inline
                               Samples.disk JUndefined (Some 7%nat)
                               (Samples.ac_start Samples.conn_inline))))
     = [(Some (JStr "authorization_code"), Some (JStr "code-42"), None)].
Proof. split; vm_compute; reflexivity. Qed.

(** C4 (amended): for every [refresh(refreshToken, cb)] with a truthy
    refresh token, whether the request is built at once or after the
    certificate loader has answered without error, what goes to the
    transport is at most one request; its form has exactly the fields
    grant_type = refresh_token, the given refresh_token, client_id,
    client_secret and scope = openid profile api, hence no [code] field;
    and the request is made whenever the TLS material resolves. *)
Theorem C4_refresh_payload :
  forall (conn : ADPAPIConnection) (fs : gmap string string) (rt : jsval),
    truthy rt = true ->
    (forall (f : option nat) (w : world AuthorizationCodeConnection.Instance),
       posted (log (snd (AuthorizationCodeConnection.refresh conn fs rt f w)))
       = posted (log w)
       \/ exists o,
            posted (log (snd (AuthorizationCodeConnection.refresh conn fs rt f w)))
            = posted (log w) ++ [o]
            /\ form (payload o)
               = {[ "grant_type" := JStr "refresh_token";
                    "refresh_token" := rt;
                    "client_id" := clientId conn;
                    "client_secret" := clientSecret conn;
                    "scope" := JStr "openid profile api" ]}
            /\ form (payload o) !! "code" = None)
    /\ (forall (err : jsval) (certs : option (gmap string string))
               (w : world AuthorizationCodeConnection.Instance),
          posted (log (snd (AuthorizationCodeConnection.readCertsCb conn fs rt err certs w)))
          = posted (log w)
          \/ exists o,
               posted (log (snd (AuthorizationCodeConnection.readCertsCb
                                   conn fs rt err certs w)))
               = posted (log w) ++ [o]
               /\ form (payload o)
                  = {[ "grant_type" := JStr "refresh_token";
                       "refresh_token" := rt;
                       "client_id" := clientId conn;
                       "client_secret" := clientSecret conn;
                       "scope" := JStr "openid profile api" ]}
               /\ form (payload o) !! "code" = None)
    /\ (forall (a : AgentOptions) (w : world AuthorizationCodeConnection.Instance),
          buildAgentOptions fs conn = Done a ->
          exists o,
            AuthorizationCodeConnection.getAccessToken conn fs rt w
            = (Done tt, {| this := this w; log := log w ++ [EvPost o] |})).
Proof.
  intros conn fs rt Hrt.
  assert (Hget : forall v : world AuthorizationCodeConnection.Instance,
            posted (log (snd (AuthorizationCodeConnection.getAccessToken conn fs rt v)))
            = posted (log v)
            \/ exists o,
                posted (log (snd (AuthorizationCodeConnection.getAccessToken conn fs rt v)))
                = posted (log v) ++ [o]
                /\ form (payload o)
                   = {[ "grant_type" := JStr "refresh_token";
                        "refresh_token" := rt;
                        "client_id" := clientId conn;
                        "client_secret" := clientSecret conn;
                        "scope" := JStr "openid profile api" ]}
                /\ form (payload o) !! "code" = None).
  { intros v. rewrite (ac_getAccessToken_refresh conn fs rt v Hrt).
    destruct (buildAgentOptions fs conn) as [a|e]; [right | left; reflexivity].
    eexists. cbn [snd log]. rewrite posted_app. cbn [posted omap list_omap payload form].
    split; [reflexivity|]. split; [reflexivity|]. reflexivity. }
  split; [|split].
  - intros f w.
    unfold AuthorizationCodeConnection.refresh, AuthorizationCodeConnection.getCerts.
    exec. destruct (0 <? _).
    + left. exec. rewrite !posted_app. cbn [posted omap list_omap].
      rewrite !app_nil_r. reflexivity.
    + match goal with |- context [AuthorizationCodeConnection.getAccessToken conn fs rt ?v] =>
        destruct (Hget v) as [E | (o & E & Hf & Hc)]; rewrite E end;
        cbn [log]; rewrite posted_app; cbn [posted omap list_omap]; rewrite app_nil_r;
        [left; reflexivity | right; eauto].
  - intros err certs w.
    unfold AuthorizationCodeConnection.readCertsCb. destruct (truthy err).
    + left. exec. destruct (AuthorizationCodeConnection.cb (this w)); exec;
        rewrite ?posted_app; cbn [posted omap list_omap]; rewrite ?app_nil_r; reflexivity.
    + exec.
      match goal with |- context [AuthorizationCodeConnection.getAccessToken conn fs rt ?v] =>
        destruct (Hget v) as [E | (o & E & Hf & Hc)]; rewrite E end;
        cbn [log]; [left; reflexivity | right; eauto].
  - intros a w Ha. rewrite (ac_getAccessToken_refresh conn fs rt w Hrt), Ha.
    eexists. reflexivity.
Qed.

Lemma C4_refresh_payload_witness :
  exists o,
    posted (log (snd (AuthorizationCodeConnection.refresh Samples.conn_inline Samples.disk
                        (JStr "r1") (Some 7%nat) (Samples.ac_start Samples.conn_inline))))
    = [o]
    /\ form (payload o) !! "grant_type" = Some (JStr "refresh_token")
    /\ form (payload o) !! "refresh_token" = Some (JStr "r1")
    /\ form (payload o) !! "code" = None.
Proof.
  destruct (C4_refresh_payload Samples.conn_inline Samples.disk (JStr "r1") ltac:(reflexivity))
    as (Href & _ & _).
  destruct (Href (Some 7%nat) (Samples.ac_start Samples.conn_inline))
    as [E | (o & E & Hf & Hc)].
  - vm_compute in E. discriminate E.
  - exists o. rewrite E, Hf. repeat split; try exact Hc; reflexivity.
Defined.


(** * Further properties of the connection flow *)

(** ** What each method sends out *)

Lemma cc_getAccessToken_eq (conn : ADPAPIConnection) (fs : gmap string string)
    (w : world ClientCredentialsConnection.Instance) :
  ClientCredentialsConnection.getAccessToken conn fs w
  = match buildAgentOptions fs conn with
    | Done a =>
        (Done tt,
         {| this := this w;
            log := log w
                   ++ [EvPost
                         {| requestDesc := "Access Token Request";
                            url := tokenUrl conn;
                            payload :=
                              {| agentOptions := a; strictSSL := false;
                                 auth := Some {| user := clientId conn;
                                                 pass := clientSecret conn;
                                                 sendImmediately := true |};
                                 form := {[ "grant_type" :=
                                              ClientCredentialsConnection.this_granttype
                                                (this w) ]} |} |}] |})
    | Thrown e => (Thrown e, w)
    end.
Proof.
  unfold ClientCredentialsConnection.getAccessToken,
    ClientCredentialsConnection.buildTokenRequestBody.
  exec. destruct (buildAgentOptions fs conn); destruct w; reflexivity.
Qed.

Lemma ac_getAccessToken_initial (conn : ADPAPIConnection) (fs : gmap string string)
    (rt : jsval) (w : world AuthorizationCodeConnection.Instance) :
  truthy rt = false ->
  AuthorizationCodeConnection.getAccessToken conn fs rt w
  = match buildAgentOptions fs conn with
    | Done a =>
        (Done tt,
         {| this := this w;
            log := log w
                   ++ [EvPost
                         {| requestDesc := "Authorization Code - Access Token Request";
                            url := tokenUrl conn;
                            payload :=
                              {| agentOptions := a; strictSSL := false; auth := None;
                                 form := {[ "grant_type" :=
                                              AuthorizationCodeConnection.this_granttype
                                                (this w);
                                            "code" := authorizationCode conn;
                                            "redirect_uri" := callbackUrl conn;
                                            "client_id" := clientId conn;
                                            "client_secret" := clientSecret conn ]} |} |}] |})
    | Thrown e => (Thrown e, w)
    end.
Proof.
  intros Hrt. unfold AuthorizationCodeConnection.getAccessToken,
    AuthorizationCodeConnection.buildTokenRequestBody.
  rewrite Hrt. exec. destruct (buildAgentOptions fs conn); destruct w; reflexivity.
Qed.

(** A request goes out at most once per call, and [getAccessToken] calls
    neither the loader nor the callback. *)
Lemma cc_getAccessToken_log (conn : ADPAPIConnection) (fs : gmap string string)
    (w : world ClientCredentialsConnection.Instance) :
  loaded (log (snd (ClientCredentialsConnection.getAccessToken conn fs w))) = loaded (log w)
  /\ called (log (snd (ClientCredentialsConnection.getAccessToken conn fs w)))
     = called (log w).
Proof.
  rewrite cc_getAccessToken_eq. destruct (buildAgentOptions fs conn); cbn [snd log];
    rewrite ?loaded_app, ?called_app; cbn [loaded called omap list_omap];
    rewrite ?app_nil_r; split; reflexivity.
Qed.

Lemma ac_getAccessToken_log (conn : ADPAPIConnection) (fs : gmap string string)
    (rt : jsval) (w : world AuthorizationCodeConnection.Instance) :
  loaded (log (snd (AuthorizationCodeConnection.getAccessToken conn fs rt w)))
  = loaded (log w)
  /\ called (log (snd (AuthorizationCodeConnection.getAccessToken conn fs rt w)))
     = called (log w).
Proof.
  destruct (truthy rt) eqn:Hrt;
    [rewrite ac_getAccessToken_refresh by exact Hrt
    | rewrite ac_getAccessToken_initial by exact Hrt];
    destruct (buildAgentOptions fs conn); cbn [snd log];
    rewrite ?loaded_app, ?called_app; cbn [loaded called omap list_omap];
    rewrite ?app_nil_r; split; reflexivity.
Qed.

Lemma some_cert_path (conn : ADPAPIConnection) :
  truthy_str (sslCertPath conn) || truthy_str (sslKeyPath conn) = true ->
  (0 <? Z.of_nat (length (List.filter truthy_str [sslCertPath conn; sslKeyPath conn]))) = true.
Proof.
  intros H. cbn [List.filter].
  destruct (truthy_str (sslCertPath conn)), (truthy_str (sslKeyPath conn));
    try discriminate; reflexivity.
Qed.

(** X1: with a certificate or key path configured, [connect] and [refresh]
    store the callback, hand the loader the configured paths that are
    non-empty (certificate first) together with [readCertsCb] (for
    [refresh], holding the refresh token), once, and return; no file is
    read, no request is posted and no callback is called before the loader
    answers, whatever is on disk. *)
Theorem X1_paths_go_to_loader :
  forall (conn : ADPAPIConnection) (fs : gmap string string),
    truthy_str (sslCertPath conn) || truthy_str (sslKeyPath conn) = true ->
    (forall f w,
       ClientCredentialsConnection.connect conn fs f w
       = (Done tt,
          {| this := ClientCredentialsConnection.set_cb f (this w);
             log := log w
                    ++ [EvDebug (DbgInitializing
                                   (ClientCredentialsConnection.this_granttype (this w)));
                        EvReadCerts
                          (List.filter truthy_str [sslCertPath conn; sslKeyPath conn])
                          ClientCredentialsCb] |}))
    /\ (forall f w,
          AuthorizationCodeConnection.connect conn fs f w
          = (Done tt,
             {| this := AuthorizationCodeConnection.set_cb f (this w);
                log := log w
                       ++ [EvDebug (DbgInitializing
                                      (AuthorizationCodeConnection.this_granttype (this w)));
                           EvReadCerts
                             (List.filter truthy_str
                                [sslCertPath conn; sslKeyPath conn])
                             (AuthorizationCodeCb JUndefined)] |}))
    /\ (forall rt f w,
          AuthorizationCodeConnection.refresh conn fs rt f w
          = (Done tt,
             {| this := AuthorizationCodeConnection.set_cb f (this w);
                log := log w
                       ++ [EvDebug (DbgInitializingRefresh
                                      (AuthorizationCodeConnection.this_granttype (this w)));
                           EvReadCerts
                             (List.filter truthy_str
                                [sslCertPath conn; sslKeyPath conn])
                             (AuthorizationCodeCb rt)] |}))
    /\ Forall (fun p => exists s, p = Some s /\ s <> EmptyString)
         (List.filter truthy_str [sslCertPath conn; sslKeyPath conn]).
Proof.
  intros conn fs H. pose proof (some_cert_path conn H) as Hlen.
  split; [|split; [|split]].
  - intros f w. unfold ClientCredentialsConnection.connect,
      ClientCredentialsConnection.getCerts. rewrite Hlen. exec.
    rewrite <- app_assoc. reflexivity.
  - intros f w. unfold AuthorizationCodeConnection.connect,
      AuthorizationCodeConnection.getCerts. rewrite Hlen. exec.
    rewrite <- app_assoc. reflexivity.
  - intros rt f w. unfold AuthorizationCodeConnection.refresh,
      AuthorizationCodeConnection.getCerts. rewrite Hlen. exec.
    rewrite <- app_assoc. reflexivity.
  - apply List.Forall_forall. intros p Hp. apply List.filter_In in Hp as [_ Hp].
    destruct p as [s|]; [|discriminate]. exists s. split; [reflexivity|].
    intros ->. discriminate.
Qed.

Lemma X1_paths_go_to_loader_witness :
  loaded (log (snd (ClientCredentialsConnection.connect Samples.conn_files ∅ (Some 7%nat)
                      (Samples.cc_start Samples.conn_files))))
  = [[Some "iat.pem"; Some "iat.key"]]
  /\ posted (log (snd (ClientCredentialsConnection.connect Samples.conn_files ∅ (Some 7%nat)
                         (Samples.cc_start Samples.conn_files))))
     = [].
Proof.
  destruct (X1_paths_go_to_loader Samples.conn_files ∅ ltac:(reflexivity)) as (Hcc & _).
  rewrite (Hcc (Some 7%nat) (Samples.cc_start Samples.conn_files)).
  split; reflexivity.
Defined.

(** ** The loader's answer *)

(** X2: when the certificate loader answers with an error and a callback
    function is stored, the callback gets the loader's error as it came
    (not a ConnectionException) together with whatever the loader passed as
    certificates; the token request is not made, the certificates are not
    stored and the callback stays stored. *)
Theorem X2_loader_error_goes_to_callback :
  forall (conn : ADPAPIConnection) (fs : gmap string string) (err : jsval)
         (certs : option (gmap string string)) (f : nat),
    truthy err = true ->
    (forall w,
       ClientCredentialsConnection.cb (this w) = Some f ->
       ClientCredentialsConnection.readCertsCb conn fs err certs w
       = (Done tt,
          {| this := this w;
             log := log w ++ [EvCallback f (LoaderError err) (CertsArg certs)] |}))
    /\ (forall rt w,
          AuthorizationCodeConnection.cb (this w) = Some f ->
          AuthorizationCodeConnection.readCertsCb conn fs rt err certs w
          = (Done tt,
             {| this := this w;
                log := log w ++ [EvCallback f (LoaderError err) (CertsArg certs)] |})).
Proof.
  intros conn fs err certs f Herr. split.
  - intros w Hcb. unfold ClientCredentialsConnection.readCertsCb. rewrite Herr. exec.
    rewrite Hcb. reflexivity.
  - intros rt w Hcb. unfold AuthorizationCodeConnection.readCertsCb. rewrite Herr. exec.
    rewrite Hcb. reflexivity.
Qed.

Lemma X2_loader_error_goes_to_callback_witness :
  log (snd (AuthorizationCodeConnection.readCertsCb Samples.conn_files Samples.disk
              (JStr "r1") (JStr "cert expired") None
              (Samples.ac_waiting Samples.conn_files)))
  = [EvCallback 7 (LoaderError (JStr "cert expired")) (CertsArg None)].
Proof.
  destruct (X2_loader_error_goes_to_callback Samples.conn_files Samples.disk
              (JStr "cert expired") None 7 ltac:(reflexivity)) as [_ Hac].
  rewrite (Hac (JStr "r1") (Samples.ac_waiting Samples.conn_files) ltac:(reflexivity)).
  reflexivity.
Defined.

(** X3: the certificates the loader returns are stored on the connection
    and nothing else: the request that follows, and whether it can be made,
    are the same whatever the loader returned, because the builders read
    the configuration and the files again. *)
Theorem X3_request_ignores_loaded_certs :
  forall (conn : ADPAPIConnection) (fs : gmap string string) (err : jsval)
         (c1 c2 : option (gmap string string)),
    truthy err = false ->
    (forall w,
       fst (ClientCredentialsConnection.readCertsCb conn fs err c1 w)
       = fst (ClientCredentialsConnection.readCertsCb conn fs err c2 w)
       /\ log (snd (ClientCredentialsConnection.readCertsCb conn fs err c1 w))
          = log (snd (ClientCredentialsConnection.readCertsCb conn fs err c2 w))
       /\ ClientCredentialsConnection.certs
            (this (snd (ClientCredentialsConnection.readCertsCb conn fs err c1 w)))
          = c1)
    /\ (forall rt w,
          fst (AuthorizationCodeConnection.readCertsCb conn fs rt err c1 w)
          = fst (AuthorizationCodeConnection.readCertsCb conn fs rt err c2 w)
          /\ log (snd (AuthorizationCodeConnection.readCertsCb conn fs rt err c1 w))
             = log (snd (AuthorizationCodeConnection.readCertsCb conn fs rt err c2 w))
          /\ AuthorizationCodeConnection.certs
               (this (snd (AuthorizationCodeConnection.readCertsCb conn fs rt err c1 w)))
             = c1).
Proof.
  intros conn fs err c1 c2 Herr. split.
  - intros w. unfold ClientCredentialsConnection.readCertsCb. rewrite Herr. exec.
    rewrite !cc_getAccessToken_eq. destruct (buildAgentOptions fs conn);
      repeat split; reflexivity.
  - intros rt w. unfold AuthorizationCodeConnection.readCertsCb. rewrite Herr. exec.
    destruct (truthy rt) eqn:Hrt;
      [rewrite !ac_getAccessToken_refresh by exact Hrt
      | rewrite !ac_getAccessToken_initial by exact Hrt];
      destruct (buildAgentOptions fs conn); repeat split; reflexivity.
Qed.

Lemma X3_request_ignores_loaded_certs_witness :
  log (snd (ClientCredentialsConnection.readCertsCb Samples.conn_files Samples.disk
              JUndefined (Some Samples.disk) (Samples.cc_waiting Samples.conn_files)))
  = log (snd (ClientCredentialsConnection.readCertsCb Samples.conn_files Samples.disk
                JUndefined None (Samples.cc_waiting Samples.conn_files))).
Proof.
  destruct (X3_request_ignores_loaded_certs Samples.conn_files Samples.disk JUndefined
              (Some Samples.disk) None ltac:(reflexivity)) as [Hcc _].
  apply (Hcc (Samples.cc_waiting Samples.conn_files)).
Defined.

(** ** The response handler sends nothing *)

Lemma cc_parse_sends_nothing (defaultexpiration : Z) (tza : Date.zone) (now : Z)
    (err : option TransportError) (token : option Token)
    (w : world ClientCredentialsConnection.Instance) :
  posted (log (snd (ClientCredentialsConnection.parseTokenResponse
                      defaultexpiration tza now err token w)))
  = posted (log w)
  /\ loaded (log (snd (ClientCredentialsConnection.parseTokenResponse
                         defaultexpiration tza now err token w)))
     = loaded (log w).
Proof.
  unfold ClientCredentialsConnection.parseTokenResponse.
  destruct err as [[sc [r|]]|], token as [t|];
    try destruct (truthy (access_token t));
    cbn [negb]; exec; try rewrite cc_setTokenExpiration_eq; exec;
    match goal with |- context [ClientCredentialsConnection.cb ?o] =>
      destruct (ClientCredentialsConnection.cb o) end;
    exec; rewrite ?posted_app, ?loaded_app; cbn [posted loaded omap list_omap];
    rewrite ?app_nil_r; split; reflexivity.
Qed.

Lemma ac_parse_sends_nothing (defaultexpiration : Z) (tza : Date.zone) (now : Z)
    (err : option TransportError) (token : option Token)
    (w : world AuthorizationCodeConnection.Instance) :
  posted (log (snd (AuthorizationCodeConnection.parseTokenResponse
                      defaultexpiration tza now err token w)))
  = posted (log w)
  /\ loaded (log (snd (AuthorizationCodeConnection.parseTokenResponse
                         defaultexpiration tza now err token w)))
     = loaded (log w).
Proof.
  unfold AuthorizationCodeConnection.parseTokenResponse.
  destruct err as [[sc [r|]]|], token as [t|];
    try destruct (truthy (access_token t));
    cbn [negb]; exec; try rewrite ac_setTokenExpiration_eq; exec;
    try match goal with |- context [AuthorizationCodeConnection.cb ?o] =>
      destruct (AuthorizationCodeConnection.cb o) end;
    exec; rewrite ?posted_app, ?loaded_app; cbn [posted loaded omap list_omap];
    rewrite ?app_nil_r; split; reflexivity.
Qed.

(** X4: [parseTokenResponse] never makes a request and never calls the
    loader, on success or on failure: a failed token request is reported
    and not retried. *)
Theorem X4_handler_never_retries :
  forall (defaultexpiration : Z) (tza : Date.zone) (now : Z) (err : option TransportError)
         (token : option Token),
    (forall w,
       posted (log (snd (ClientCredentialsConnection.parseTokenResponse
                           defaultexpiration tza now err token w)))
       = posted (log w)
       /\ loaded (log (snd (ClientCredentialsConnection.parseTokenResponse
                              defaultexpiration tza now err token w)))
          = loaded (log w))
    /\ (forall w,
          posted (log (snd (AuthorizationCodeConnection.parseTokenResponse
                              defaultexpiration tza now err token w)))
          = posted (log w)
          /\ loaded (log (snd (AuthorizationCodeConnection.parseTokenResponse
                                 defaultexpiration tza now err token w)))
             = loaded (log w)).
Proof.
  intros dflt tza now err token. split; intros w.
  - apply cc_parse_sends_nothing.
  - apply ac_parse_sends_nothing.
Qed.

(** ** The stored callback across invocations *)

Lemma cc_getCerts_called (conn : ADPAPIConnection) (fs : gmap string string)
    (w : world ClientCredentialsConnection.Instance) :
  called (log (snd (ClientCredentialsConnection.getCerts conn fs w))) = called (log w).
Proof.
  unfold ClientCredentialsConnection.getCerts. destruct (0 <? _).
  - exec. rewrite called_app. cbn [called omap list_omap]. apply app_nil_r.
  - apply cc_getAccessToken_log.
Qed.

Lemma ac_getCerts_called (conn : ADPAPIConnection) (fs : gmap string string) (rt : jsval)
    (w : world AuthorizationCodeConnection.Instance) :
  called (log (snd (AuthorizationCodeConnection.getCerts conn fs rt w))) = called (log w).
Proof.
  unfold AuthorizationCodeConnection.getCerts. destruct (0 <? _).
  - exec. rewrite called_app. cbn [called omap list_omap]. apply app_nil_r.
  - apply ac_getAccessToken_log.
Qed.

(** [connect] stores its argument, whatever was stored before and however
    the call ends, and calls no callback. *)
Lemma cc_connect_stores (conn : ADPAPIConnection) (fs : gmap string string)
    (f : option nat) (w : world ClientCredentialsConnection.Instance) :
  ClientCredentialsConnection.cb
    (this (snd (ClientCredentialsConnection.connect conn fs f w))) = f
  /\ called (log (snd (ClientCredentialsConnection.connect conn fs f w))) = called (log w).
Proof.
  unfold ClientCredentialsConnection.connect. exec.
  match goal with |- context [ClientCredentialsConnection.getCerts conn fs ?v] =>
    rewrite (cc_getCerts_keeps conn fs v), (cc_getCerts_called conn fs v) end.
  cbn [this log ClientCredentialsConnection.cb ClientCredentialsConnection.set_cb].
  rewrite called_app. cbn [called omap list_omap]. rewrite app_nil_r. split; reflexivity.
Qed.

Lemma ac_connect_stores (conn : ADPAPIConnection) (fs : gmap string string)
    (f : option nat) (w : world AuthorizationCodeConnection.Instance) :
  AuthorizationCodeConnection.cb
    (this (snd (AuthorizationCodeConnection.connect conn fs f w))) = f
  /\ called (log (snd (AuthorizationCodeConnection.connect conn fs f w))) = called (log w).
Proof.
  unfold AuthorizationCodeConnection.connect. exec.
  match goal with |- context [AuthorizationCodeConnection.getCerts conn fs ?r ?v] =>
    rewrite (ac_getCerts_keeps conn fs r v), (ac_getCerts_called conn fs r v) end.
  cbn [this log AuthorizationCodeConnection.cb AuthorizationCodeConnection.set_cb].
  rewrite called_app. cbn [called omap list_omap]. rewrite app_nil_r. split; reflexivity.
Qed.

Lemma ac_refresh_stores (conn : ADPAPIConnection) (fs : gmap string string) (rt : jsval)
    (f : option nat) (w : world AuthorizationCodeConnection.Instance) :
  AuthorizationCodeConnection.cb
    (this (snd (AuthorizationCodeConnection.refresh conn fs rt f w))) = f
  /\ called (log (snd (AuthorizationCodeConnection.refresh conn fs rt f w)))
     = called (log w).
Proof.
  unfold AuthorizationCodeConnection.refresh. exec.
  match goal with |- context [AuthorizationCodeConnection.getCerts conn fs ?r ?v] =>
    rewrite (ac_getCerts_keeps conn fs r v), (ac_getCerts_called conn fs r v) end.
  cbn [this log AuthorizationCodeConnection.cb AuthorizationCodeConnection.set_cb].
  rewrite called_app. cbn [called omap list_omap]. rewrite app_nil_r. split; reflexivity.
Qed.

(** X5: a second [connect] (or [refresh]) made before the first one's
    response arrives replaces the stored callback: the response is
    delivered to the second callback only, and the first caller is never
    called. *)
Theorem X5_second_connect_replaces_callback :
  forall (conn : ADPAPIConnection) (fs : gmap string string)
         (defaultexpiration : Z) (tza : Date.zone) (now : Z) (f1 : option nat) (f2 : nat)
         (err : option TransportError) (token : option Token),
    (forall e, err = Some e -> response e <> None) ->
    (forall w,
       called (log (ClientCredentialsRun.run conn fs defaultexpiration tza
                      [ClientCredentialsRun.Connect f1;
                       ClientCredentialsRun.Connect (Some f2);
                       ClientCredentialsRun.ParseTokenResponse now err token] w))
       = called (log w)
         ++ [(f2,
              match err with
              | Some e =>
                  ConnectionException
                    {| eo_statusCode := statusCode e;
                       oauthResponse := match response e with
                                        | Some r => body r
                                        | None => JUndefined
                                        end |}
              | None => NoError
              end,
              TokenArg token)])
    /\ (forall rt w,
          called (log (AuthorizationCodeRun.run conn fs defaultexpiration tza
                         [AuthorizationCodeRun.Connect f1;
                          AuthorizationCodeRun.Refresh rt (Some f2);
                          AuthorizationCodeRun.ParseTokenResponse now err token] w))
          = called (log w)
            ++ [(f2,
                 match err with
                 | Some e =>
                     ConnectionException
                       {| eo_statusCode := statusCode e;
                          oauthResponse := match response e with
                                           | Some r => body r
                                           | None => JUndefined
                                           end |}
                 | None => NoError
                 end,
                 TokenArg token)]).
Proof.
  intros conn fs dflt tza now f1 f2 err token Hresp. split.
  - intros w. cbn [ClientCredentialsRun.run ClientCredentialsRun.invoke].
    set (w1 := snd (ClientCredentialsConnection.connect conn fs f1 w)).
    set (w2 := snd (ClientCredentialsConnection.connect conn fs (Some f2) w1)).
    destruct (cc_connect_stores conn fs f1 w) as [_ K1].
    destruct (cc_connect_stores conn fs (Some f2) w1) as [S2 K2].
    destruct (cc_parse_delivers dflt tza now err token w2 f2 S2) as (_ & D & _).
    rewrite D. unfold w2. rewrite K2. unfold w1. rewrite K1. reflexivity.
  - intros rt w. cbn [AuthorizationCodeRun.run AuthorizationCodeRun.invoke].
    set (w1 := snd (AuthorizationCodeConnection.connect conn fs f1 w)).
    set (w2 := snd (AuthorizationCodeConnection.refresh conn fs rt (Some f2) w1)).
    destruct (ac_connect_stores conn fs f1 w) as [_ K1].
    destruct (ac_refresh_stores conn fs rt (Some f2) w1) as [S2 K2].
    destruct (ac_parse_delivers dflt tza now err token w2 f2 S2 Hresp) as (_ & D & _).
    rewrite D. unfold w2. rewrite K2. unfold w1. rewrite K1. reflexivity.
Qed.

Lemma X5_second_connect_replaces_callback_witness :
  called (log (ClientCredentialsRun.run Samples.conn_inline Samples.disk 3600 Date.utc
                 [ClientCredentialsRun.Connect (Some 1%nat);
                  ClientCredentialsRun.Connect (Some 2%nat);
                  ClientCredentialsRun.ParseTokenResponse Samples.clock None
                    (Some Samples.token_3600)]
                 (Samples.cc_start Samples.conn_inline)))
  = [(2%nat, NoError, TokenArg (Some Samples.token_3600))].
Proof.
  refine (proj1 (X5_second_connect_replaces_callback Samples.conn_inline Samples.disk 3600 Date.utc
                   Samples.clock (Some 1%nat) 2 None (Some Samples.token_3600) _)
            (Samples.cc_start Samples.conn_inline)).
  intros e He. discriminate He.
Defined.

Lemma cc_parse_without_callback (defaultexpiration : Z) (tza : Date.zone) (now : Z)
    (err : option TransportError) (token : option Token)
    (w : world ClientCredentialsConnection.Instance) :
  ClientCredentialsConnection.cb (this w) = None ->
  fst (ClientCredentialsConnection.parseTokenResponse defaultexpiration tza now err token w)
  = Done tt
  /\ called (log (snd (ClientCredentialsConnection.parseTokenResponse
                         defaultexpiration tza now err token w)))
     = called (log w).
Proof.
  intros Hcb. unfold ClientCredentialsConnection.parseTokenResponse.
  destruct err as [[sc [r|]]|], token as [t|];
    try destruct (truthy (access_token t));
    cbn [negb]; exec; try rewrite cc_setTokenExpiration_eq; exec;
    cbn [ClientCredentialsConnection.cb ClientCredentialsConnection.set_tokenExpiration
         ClientCredentialsConnection.set_tokenExpirationMs];
    rewrite Hcb; exec; rewrite ?called_app; cbn [called omap list_omap];
    rewrite ?app_nil_r; split; reflexivity.
Qed.

(** X6: on a client-credentials connection a response that arrives again
    after the flow has completed is handled without raising and reaches no
    callback: whatever the two responses are, the stored callback is called
    once, with the first. *)
Theorem X6_client_credentials_delivers_once :
  forall (conn : ADPAPIConnection) (fs : gmap string string)
         (defaultexpiration : Z) (tza : Date.zone) (now now' : Z) (f : nat)
         (err err' : option TransportError) (token token' : option Token)
         (w : world ClientCredentialsConnection.Instance),
    ClientCredentialsConnection.cb (this w) = Some f ->
    called (log (ClientCredentialsRun.run conn fs defaultexpiration tza
                   [ClientCredentialsRun.ParseTokenResponse now err token;
                    ClientCredentialsRun.ParseTokenResponse now' err' token'] w))
    = called (log w)
      ++ [(f,
           match err with
           | Some e =>
               ConnectionException
                 {| eo_statusCode := statusCode e;
                    oauthResponse := match response e with
                                     | Some r => body r
                                     | None => JUndefined
                                     end |}
           | None => NoError
           end,
           TokenArg token)]
    /\ fst (ClientCredentialsConnection.parseTokenResponse defaultexpiration tza now' err'
              token'
              (snd (ClientCredentialsConnection.parseTokenResponse
                      defaultexpiration tza now err token w)))
       = Done tt.
Proof.
  intros conn fs dflt tza now now' f err err' token token' w Hcb.
  cbn [ClientCredentialsRun.run ClientCredentialsRun.invoke].
  destruct (cc_parse_delivers dflt tza now err token w f Hcb) as (_ & D & N).
  destruct (cc_parse_without_callback dflt tza now' err' token' _ N) as [R C].
  rewrite C, D. split; [reflexivity | exact R].
Qed.

Lemma X6_client_credentials_delivers_once_witness :
  called (log (ClientCredentialsRun.run Samples.conn_inline Samples.disk 3600 Date.utc
                 [ClientCredentialsRun.ParseTokenResponse Samples.clock None
                    (Some Samples.token_3600);
                  ClientCredentialsRun.ParseTokenResponse Samples.clock
                    (Some Samples.err_401) None]
                 (Samples.cc_waiting Samples.conn_inline)))
  = [(7%nat, NoError, TokenArg (Some Samples.token_3600))].
Proof.
  apply (X6_client_credentials_delivers_once Samples.conn_inline Samples.disk 3600 Date.utc
           Samples.clock Samples.clock 7 None (Some Samples.err_401)
           (Some Samples.token_3600) None (Samples.cc_waiting Samples.conn_inline)).
  reflexivity.
Defined.

(** X7: on an authorization-code connection the callback stays stored, so
    a response that arrives again is delivered to the same callback again:
    two responses give two calls, in order. *)
Theorem X7_authorization_code_delivers_again :
  forall (conn : ADPAPIConnection) (fs : gmap string string)
         (defaultexpiration : Z) (tza : Date.zone) (now now' : Z) (f : nat)
         (token token' : option Token)
         (w : world AuthorizationCodeConnection.Instance),
    AuthorizationCodeConnection.cb (this w) = Some f ->
    called (log (AuthorizationCodeRun.run conn fs defaultexpiration tza
                   [AuthorizationCodeRun.ParseTokenResponse now None token;
                    AuthorizationCodeRun.ParseTokenResponse now' None token'] w))
    = called (log w) ++ [(f, NoError, TokenArg token); (f, NoError, TokenArg token')].
Proof.
  intros conn fs dflt tza now now' f token token' w Hcb.
  cbn [AuthorizationCodeRun.run AuthorizationCodeRun.invoke].
  assert (Hn : forall e : TransportError, @None TransportError = Some e -> response e <> None)
    by (intros e He; discriminate He).
  destruct (ac_parse_delivers dflt tza now None token w f Hcb Hn) as (_ & D & K).
  destruct (ac_parse_delivers dflt tza now' None token' _ f K Hn) as (_ & D' & _).
  rewrite D', D, <- app_assoc. reflexivity.
Qed.

Lemma X7_authorization_code_delivers_again_witness :
  called (log (AuthorizationCodeRun.run Samples.conn_inline Samples.disk 3600 Date.utc
                 [AuthorizationCodeRun.ParseTokenResponse Samples.clock None
                    (Some Samples.token_3600);
                  AuthorizationCodeRun.ParseTokenResponse Samples.clock None None]
                 (Samples.ac_waiting Samples.conn_inline)))
  = [(7%nat, NoError, TokenArg (Some Samples.token_3600)); (7%nat, NoError, TokenArg None)].
Proof.
  apply (X7_authorization_code_delivers_again Samples.conn_inline Samples.disk 3600 Date.utc
           Samples.clock Samples.clock 7 (Some Samples.token_3600) None
           (Samples.ac_waiting Samples.conn_inline)).
  reflexivity.
Defined.

(** ** When the request can be built *)

Lemma string_or_file_resolves (fs : gmap string string) (inline path : option string) :
  (exists m, string_or_file fs inline path = Done m)
  <-> truthy_str inline = true
      \/ exists p c, path = Some p /\ fs !! p = Some c.
Proof.
  split.
  - intros [m Hm]. apply string_or_file_Done in Hm.
    destruct Hm as [(T & _) | (_ & p & c & Hp & Hc & _)]; [left; exact T | right; eauto].
  - unfold string_or_file, readFileSync. intros [T | (p & c & -> & Hc)].
    + destruct inline as [s|]; [|discriminate]. rewrite T. eauto.
    + rewrite Hc. destruct inline as [s|]; [destruct (truthy_str (Some s))|]; eauto.
Qed.

(** X8: the TLS options of a request can be built exactly when the
    certificate is available (a non-empty sslCertString, or a file at
    sslCertPath) and the key is available (a non-empty sslKeyString, or a
    file at sslKeyPath); otherwise building raises. *)
Theorem X8_tls_options_buildable :
  forall (conn : ADPAPIConnection) (fs : gmap string string),
    (exists a, buildAgentOptions fs conn = Done a)
    <-> (truthy_str (sslCertString conn) = true
         \/ exists p c, sslCertPath conn = Some p /\ fs !! p = Some c)
        /\ (truthy_str (sslKeyString conn) = true
            \/ exists p c, sslKeyPath conn = Some p /\ fs !! p = Some c).
Proof.
  intros conn fs. rewrite <- !string_or_file_resolves. split.
  - intros [a Ha]. destruct (buildAgentOptions_Done fs conn a Ha) as (c & k & Hc & Hk & _).
    eauto.
  - intros [[c Hc] [k Hk]]. unfold buildAgentOptions. rewrite Hc, Hk. eauto.
Qed.

(** X9: with no certificate path, no key path and no usable sslCertString,
    [connect] and [refresh] raise a TypeError to their caller: the callback
    has been stored but is not called, and no request is posted. *)
Theorem X9_unconfigured_certificate_raises :
  forall (conn : ADPAPIConnection) (fs : gmap string string),
    sslCertPath conn = None ->
    truthy_str (sslKeyPath conn) = false ->
    truthy_str (sslCertString conn) = false ->
    (forall f w,
       ClientCredentialsConnection.connect conn fs f w
       = (Thrown TypeError,
          {| this := ClientCredentialsConnection.set_cb f (this w);
             log := log w
                    ++ [EvDebug (DbgInitializing
                                   (ClientCredentialsConnection.this_granttype
                                      (this w)))] |}))
    /\ (forall f w,
          AuthorizationCodeConnection.connect conn fs f w
          = (Thrown TypeError,
             {| this := AuthorizationCodeConnection.set_cb f (this w);
                log := log w
                       ++ [EvDebug (DbgInitializing
                                      (AuthorizationCodeConnection.this_granttype
                                         (this w)))] |}))
    /\ (forall rt f w,
          AuthorizationCodeConnection.refresh conn fs rt f w
          = (Thrown TypeError,
             {| this := AuthorizationCodeConnection.set_cb f (this w);
                log := log w
                       ++ [EvDebug (DbgInitializingRefresh
                                      (AuthorizationCodeConnection.this_granttype
                                         (this w)))] |})).
Proof.
  intros conn fs Hp Hk Hs.
  assert (Hb : buildAgentOptions fs conn = Thrown TypeError).
  { unfold buildAgentOptions, string_or_file, readFileSync. rewrite Hp.
    destruct (sslCertString conn) as [s|]; [rewrite Hs|]; reflexivity. }
  assert (Hf : truthy_str (sslCertPath conn) = false) by (rewrite Hp; reflexivity).
  assert (Gcc : forall w, ClientCredentialsConnection.getCerts conn fs w
                          = ClientCredentialsConnection.getAccessToken conn fs w).
  { intros w. unfold ClientCredentialsConnection.getCerts.
    rewrite (no_cert_paths conn Hf Hk). reflexivity. }
  assert (Gac : forall rt w, AuthorizationCodeConnection.getCerts conn fs rt w
                             = AuthorizationCodeConnection.getAccessToken conn fs rt w).
  { intros rt w. unfold AuthorizationCodeConnection.getCerts.
    rewrite (no_cert_paths conn Hf Hk). reflexivity. }
  split; [|split].
  - intros f w. unfold ClientCredentialsConnection.connect. exec.
    rewrite Gcc, cc_getAccessToken_eq, Hb. reflexivity.
  - intros f w. unfold AuthorizationCodeConnection.connect. exec.
    rewrite Gac, ac_getAccessToken_initial, Hb by reflexivity. reflexivity.
  - intros rt f w. unfold AuthorizationCodeConnection.refresh. exec. rewrite Gac.
    destruct (truthy rt) eqn:Hrt;
      [rewrite ac_getAccessToken_refresh by exact Hrt
      | rewrite ac_getAccessToken_initial by exact Hrt];
      rewrite Hb; reflexivity.
Qed.

Lemma X9_unconfigured_certificate_raises_witness :
  fst (ClientCredentialsConnection.connect Cases.conn_bare Samples.disk (Some 7%nat)
         (Samples.cc_start Cases.conn_bare))
  = Thrown TypeError
  /\ called (log (snd (ClientCredentialsConnection.connect Cases.conn_bare Samples.disk
                         (Some 7%nat) (Samples.cc_start Cases.conn_bare))))
     = []
  /\ ClientCredentialsConnection.cb
       (this (snd (ClientCredentialsConnection.connect Cases.conn_bare Samples.disk
                     (Some 7%nat) (Samples.cc_start Cases.conn_bare))))
     = Some 7%nat.
Proof.
  destruct (X9_unconfigured_certificate_raises Cases.conn_bare Samples.disk
              ltac:(reflexivity) ltac:(reflexivity) ltac:(reflexivity)) as (Hcc & _).
  rewrite (Hcc (Some 7%nat) (Samples.cc_start Cases.conn_bare)).
  repeat split; reflexivity.
Defined.

(** ** Every request a connection ever posts *)

Section ClientCredentialsRequests.
Import ClientCredentialsConnection ClientCredentialsRun.
Variable conn : ADPAPIConnection.
Variable fs : gmap string string.
Variable defaultexpiration : Z.
Variable tza : Date.zone.

(** No method assigns [this.granttype]. *)
Lemma cc_invoke_granttype (i : invocation) (w : world Instance) :
  this_granttype (this (snd (invoke conn fs defaultexpiration tza i w)))
  = this_granttype (this w).
Proof.
  destruct i as [f | err c | now err token]; cbn [invoke].
  - unfold connect. exec.
    match goal with |- context [getCerts conn fs ?v] =>
      rewrite (cc_getCerts_keeps conn fs v) end.
    reflexivity.
  - unfold readCertsCb. destruct (truthy err); exec.
    + destruct (cb (this w)); reflexivity.
    + match goal with |- context [getAccessToken conn fs ?v] =>
        rewrite (cc_getAccessToken_keeps conn fs v) end.
      reflexivity.
  - unfold parseTokenResponse.
    destruct err as [[sc [r|]]|], token as [t|];
      try destruct (truthy (access_token t));
      cbn [negb]; exec; try rewrite cc_setTokenExpiration_eq; exec;
      match goal with |- context [cb ?o] => destruct (cb o) end; reflexivity.
Qed.

(** One invocation posts nothing, or the one request fixed by the
    configuration, the files and the grant type. *)
Lemma cc_invoke_posted (i : invocation) (w : world Instance) :
  posted (log (snd (invoke conn fs defaultexpiration tza i w))) = posted (log w)
  \/ exists a,
       buildAgentOptions fs conn = Done a
       /\ posted (log (snd (invoke conn fs defaultexpiration tza i w)))
          = posted (log w)
            ++ [{| requestDesc := "Access Token Request";
                   url := tokenUrl conn;
                   payload :=
                     {| agentOptions := a; strictSSL := false;
                        auth := Some {| user := clientId conn; pass := clientSecret conn;
                                        sendImmediately := true |};
                        form := {[ "grant_type" := this_granttype (this w) ]} |} |}].
Proof.
  assert (Hget : forall v : world Instance,
            posted (log (snd (getAccessToken conn fs v))) = posted (log v)
            \/ exists a,
                 buildAgentOptions fs conn = Done a
                 /\ posted (log (snd (getAccessToken conn fs v)))
                    = posted (log v)
                      ++ [{| requestDesc := "Access Token Request";
                             url := tokenUrl conn;
                             payload :=
                               {| agentOptions := a; strictSSL := false;
                                  auth := Some {| user := clientId conn;
                                                  pass := clientSecret conn;
                                                  sendImmediately := true |};
                                  form := {[ "grant_type" := this_granttype (this v) ]} |} |}]).
  { intros v. rewrite cc_getAccessToken_eq.
    destruct (buildAgentOptions fs conn) as [a|e]; [right | left; reflexivity].
    exists a. split; [reflexivity|]. cbn [snd log]. rewrite posted_app. reflexivity. }
  destruct i as [f | err c | now err token]; cbn [invoke].
  - unfold connect, getCerts. exec. destruct (0 <? _).
    + left. exec. rewrite !posted_app. cbn [posted omap list_omap].
      rewrite !app_nil_r. reflexivity.
    + match goal with |- context [getAccessToken conn fs ?v] =>
        destruct (Hget v) as [E | (a & Ha & E)]; rewrite E end;
        cbn [this log this_granttype set_cb]; rewrite posted_app;
        cbn [posted omap list_omap]; rewrite app_nil_r; [left; reflexivity | right; eauto].
  - unfold readCertsCb. destruct (truthy err); exec.
    + left. destruct (cb (this w)); exec; rewrite ?posted_app;
        cbn [posted omap list_omap]; rewrite ?app_nil_r; reflexivity.
    + match goal with |- context [getAccessToken conn fs ?v] =>
        destruct (Hget v) as [E | (a & Ha & E)]; rewrite E end;
        cbn [this log this_granttype set_certs]; [left; reflexivity | right; eauto].
  - left. apply cc_parse_sends_nothing.
Qed.

Lemma cc_run_requests (l : list invocation) (w : world Instance) :
  exists new,
    posted (log (run conn fs defaultexpiration tza l w)) = posted (log w) ++ new
    /\ (length new <= length l)%nat
    /\ Forall (fun o => exists a,
                 buildAgentOptions fs conn = Done a
                 /\ o = {| requestDesc := "Access Token Request";
                           url := tokenUrl conn;
                           payload :=
                             {| agentOptions := a; strictSSL := false;
                                auth := Some {| user := clientId conn;
                                                pass := clientSecret conn;
                                                sendImmediately := true |};
                                form := {[ "grant_type" := this_granttype (this w) ]} |} |})
         new.
Proof.
  revert w. induction l as [|i l IH]; intros w; cbn [run].
  - exists []. rewrite app_nil_r. repeat split; [reflexivity | constructor].
  - destruct (IH (snd (invoke conn fs defaultexpiration tza i w))) as (new & E & Hlen & HP).
    rewrite cc_invoke_granttype in HP.
    destruct (cc_invoke_posted i w) as [E1 | (a & Ha & E1)]; rewrite E1 in E.
    + exists new. split; [exact E|]. split; [cbn [length]; lia | exact HP].
    + eexists (_ :: new). rewrite <- app_assoc in E. split; [exact E|].
      split; [cbn [length]; lia|]. constructor; [eauto | exact HP].
Qed.
End ClientCredentialsRequests.

(** X10: whatever is invoked on a new client-credentials connection, in
    whatever order, every request it posts is the same one: to
    conn.tokenUrl, with the TLS options resolved from the configuration,
    strictSSL off, the client id and secret as basic-auth credentials sent
    immediately, and a form holding only grant_type = conn.granttype; and
    there are no more requests than invocations. *)
Theorem X10_client_credentials_requests :
  forall (conn : ADPAPIConnection) (fs : gmap string string) (defaultexpiration : Z) (tza : Date.zone)
         (l : list ClientCredentialsRun.invocation),
    (length (posted (log (ClientCredentialsRun.run conn fs defaultexpiration tza l
                            {| this := ClientCredentialsConnection.construct conn;
                               log := [] |})))
     <= length l)%nat
    /\ Forall (fun o => exists a,
                 buildAgentOptions fs conn = Done a
                 /\ o = {| requestDesc := "Access Token Request";
                           url := tokenUrl conn;
                           payload :=
                             {| agentOptions := a; strictSSL := false;
                                auth := Some {| user := clientId conn;
                                                pass := clientSecret conn;
                                                sendImmediately := true |};
                                form := {[ "grant_type" := granttype conn ]} |} |})
         (posted (log (ClientCredentialsRun.run conn fs defaultexpiration tza l
                         {| this := ClientCredentialsConnection.construct conn;
                            log := [] |}))).
Proof.
  intros conn fs dflt tza l.
  destruct (cc_run_requests conn fs dflt tza l
              {| this := ClientCredentialsConnection.construct conn; log := [] |})
    as (new & E & Hlen & HP).
  rewrite E. cbn [log posted omap list_omap app]. split; [exact Hlen | exact HP].
Qed.

Section AuthorizationCodeRequests.
Import AuthorizationCodeConnection AuthorizationCodeRun.
Variable conn : ADPAPIConnection.
Variable fs : gmap string string.
Variable defaultexpiration : Z.
Variable tza : Date.zone.

Lemma ac_invoke_granttype (i : invocation) (w : world Instance) :
  this_granttype (this (snd (invoke conn fs defaultexpiration tza i w)))
  = this_granttype (this w).
Proof.
  destruct i as [f | rt f | rt err c | now err token]; cbn [invoke].
  - unfold connect. exec.
    match goal with |- context [getCerts conn fs ?r ?v] =>
      rewrite (ac_getCerts_keeps conn fs r v) end.
    reflexivity.
  - unfold refresh. exec.
    match goal with |- context [getCerts conn fs ?r ?v] =>
      rewrite (ac_getCerts_keeps conn fs r v) end.
    reflexivity.
  - unfold readCertsCb. destruct (truthy err); exec.
    + destruct (cb (this w)); reflexivity.
    + match goal with |- context [getAccessToken conn fs ?r ?v] =>
        rewrite (ac_getAccessToken_keeps conn fs r v) end.
      reflexivity.
  - unfold parseTokenResponse.
    destruct err as [[sc [r|]]|], token as [t|];
      try destruct (truthy (access_token t));
      cbn [negb]; exec; try rewrite ac_setTokenExpiration_eq; exec;
      try match goal with |- context [cb ?o] => destruct (cb o) end; reflexivity.
Qed.

(** [getAccessToken] posts nothing, the initial request, or the refresh
    request for the truthy token it was given. *)
Lemma ac_getAccessToken_posted (rt : jsval) (v : world Instance) :
  posted (log (snd (getAccessToken conn fs rt v))) = posted (log v)
  \/ exists a o,
       buildAgentOptions fs conn = Done a
       /\ posted (log (snd (getAccessToken conn fs rt v))) = posted (log v) ++ [o]
       /\ requestDesc o = "Authorization Code - Access Token Request"
       /\ url o = tokenUrl conn
       /\ agentOptions (payload o) = a
       /\ strictSSL (payload o) = false
       /\ auth (payload o) = None
       /\ (form (payload o)
           = {[ "grant_type" := this_granttype (this v);
                "code" := authorizationCode conn;
                "redirect_uri" := callbackUrl conn;
                "client_id" := clientId conn;
                "client_secret" := clientSecret conn ]}
           \/ exists r, truthy r = true
                /\ form (payload o)
                   = {[ "grant_type" := JStr "refresh_token";
                        "refresh_token" := r;
                        "client_id" := clientId conn;
                        "client_secret" := clientSecret conn;
                        "scope" := JStr "openid profile api" ]}).
Proof.
  destruct (truthy rt) eqn:Hrt;
    [rewrite ac_getAccessToken_refresh by exact Hrt
    | rewrite ac_getAccessToken_initial by exact Hrt];
    (destruct (buildAgentOptions fs conn) as [a|e]; [right | left; reflexivity]);
    exists a; eexists; (split; [reflexivity|]); cbn [snd log]; rewrite posted_app;
    (split; [reflexivity|]); cbn [requestDesc url payload agentOptions strictSSL auth form];
    repeat (split; [reflexivity|]); [right; exists rt; split; [exact Hrt | reflexivity]
                                    | left; reflexivity].
Qed.

Lemma ac_invoke_posted (i : invocation) (w : world Instance) :
  posted (log (snd (invoke conn fs defaultexpiration tza i w))) = posted (log w)
  \/ exists a o,
       buildAgentOptions fs conn = Done a
       /\ posted (log (snd (invoke conn fs defaultexpiration tza i w)))
          = posted (log w) ++ [o]
       /\ requestDesc o = "Authorization Code - Access Token Request"
       /\ url o = tokenUrl conn
       /\ agentOptions (payload o) = a
       /\ strictSSL (payload o) = false
       /\ auth (payload o) = None
       /\ (form (payload o)
           = {[ "grant_type" := this_granttype (this w);
                "code" := authorizationCode conn;
                "redirect_uri" := callbackUrl conn;
                "client_id" := clientId conn;
                "client_secret" := clientSecret conn ]}
           \/ exists r, truthy r = true
                /\ form (payload o)
                   = {[ "grant_type" := JStr "refresh_token";
                        "refresh_token" := r;
                        "client_id" := clientId conn;
                        "client_secret" := clientSecret conn;
                        "scope" := JStr "openid profile api" ]}).
Proof.
  destruct i as [f | rt f | rt err c | now err token]; cbn [invoke].
  - unfold connect, getCerts. exec. destruct (0 <? _).
    + left. exec. rewrite !posted_app. cbn [posted omap list_omap].
      rewrite !app_nil_r. reflexivity.
    + match goal with |- context [getAccessToken conn fs ?r ?v] =>
        destruct (ac_getAccessToken_posted r v) as [E | (a & o & Ha & E & H)];
          rewrite E end;
        cbn [this log this_granttype set_cb] in *; rewrite posted_app;
        cbn [posted omap list_omap]; rewrite app_nil_r;
        [left; reflexivity | right; exists a, o; auto].
  - unfold refresh, getCerts. exec. destruct (0 <? _).
    + left. exec. rewrite !posted_app. cbn [posted omap list_omap].
      rewrite !app_nil_r. reflexivity.
    + match goal with |- context [getAccessToken conn fs ?r ?v] =>
        destruct (ac_getAccessToken_posted r v) as [E | (a & o & Ha & E & H)];
          rewrite E end;
        cbn [this log this_granttype set_cb] in *; rewrite posted_app;
        cbn [posted omap list_omap]; rewrite app_nil_r;
        [left; reflexivity | right; exists a, o; auto].
  - unfold readCertsCb. destruct (truthy err); exec.
    + left. destruct (cb (this w)); exec; rewrite ?posted_app;
        cbn [posted omap list_omap]; rewrite ?app_nil_r; reflexivity.
    + match goal with |- context [getAccessToken conn fs ?r ?v] =>
        destruct (ac_getAccessToken_posted r v) as [E | (a & o & Ha & E & H)];
          rewrite E end;
        cbn [this log this_granttype set_certs] in *;
        [left; reflexivity | right; exists a, o; auto].
  - left. apply ac_parse_sends_nothing.
Qed.

Lemma ac_run_requests (l : list invocation) (w : world Instance) :
  exists new,
    posted (log (run conn fs defaultexpiration tza l w)) = posted (log w) ++ new
    /\ (length new <= length l)%nat
    /\ Forall (fun o =>
                 buildAgentOptions fs conn = Done (agentOptions (payload o))
                 /\ requestDesc o = "Authorization Code - Access Token Request"
                 /\ url o = tokenUrl conn
                 /\ strictSSL (payload o) = false
                 /\ auth (payload o) = None
                 /\ (form (payload o)
                     = {[ "grant_type" := this_granttype (this w);
                          "code" := authorizationCode conn;
                          "redirect_uri" := callbackUrl conn;
                          "client_id" := clientId conn;
                          "client_secret" := clientSecret conn ]}
                     \/ exists r, truthy r = true
                          /\ form (payload o)
                             = {[ "grant_type" := JStr "refresh_token";
                                  "refresh_token" := r;
                                  "client_id" := clientId conn;
                                  "client_secret" := clientSecret conn;
                                  "scope" := JStr "openid profile api" ]}))
         new.
Proof.
  revert w. induction l as [|i l IH]; intros w; cbn [run].
  - exists []. rewrite app_nil_r. repeat split; [reflexivity | constructor].
  - destruct (IH (snd (invoke conn fs defaultexpiration tza i w))) as (new & E & Hlen & HP).
    rewrite ac_invoke_granttype in HP.
    destruct (ac_invoke_posted i w)
      as [E1 | (a & o & Ha & E1 & H1 & H2 & H3 & H4 & H5 & H6)]; rewrite E1 in E.
    + exists new. split; [exact E|]. split; [cbn [length]; lia | exact HP].
    + exists (o :: new). rewrite <- app_assoc in E. split; [exact E|].
      split; [cbn [length]; lia|]. constructor; [|exact HP].
      rewrite H3. auto 10.
Qed.
End AuthorizationCodeRequests.

(** X11: whatever is invoked on a new authorization-code connection, in
    whatever order, every request it posts goes to conn.tokenUrl with the
    TLS options resolved from the configuration, strictSSL off and no
    basic-auth credentials, and its form is either the initial one
    (grant_type = conn.granttype, code, redirect_uri, client_id,
    client_secret) or the refresh one for some truthy refresh token; and
    there are no more requests than invocations. *)
Theorem X11_authorization_code_requests :
  forall (conn : ADPAPIConnection) (fs : gmap string string) (defaultexpiration : Z) (tza : Date.zone)
         (l : list AuthorizationCodeRun.invocation),
    (length (posted (log (AuthorizationCodeRun.run conn fs defaultexpiration tza l
                            {| this := AuthorizationCodeConnection.construct conn;
                               log := [] |})))
     <= length l)%nat
    /\ Forall (fun o =>
                 buildAgentOptions fs conn = Done (agentOptions (payload o))
                 /\ requestDesc o = "Authorization Code - Access Token Request"
                 /\ url o = tokenUrl conn
                 /\ strictSSL (payload o) = false
                 /\ auth (payload o) = None
                 /\ (form (payload o)
                     = {[ "grant_type" := granttype conn;
                          "code" := authorizationCode conn;
                          "redirect_uri" := callbackUrl conn;
                          "client_id" := clientId conn;
                          "client_secret" := clientSecret conn ]}
                     \/ exists r, truthy r = true
                          /\ form (payload o)
                             = {[ "grant_type" := JStr "refresh_token";
                                  "refresh_token" := r;
                                  "client_id" := clientId conn;
                                  "client_secret" := clientSecret conn;
                                  "scope" := JStr "openid profile api" ]}))
         (posted (log (AuthorizationCodeRun.run conn fs defaultexpiration tza l
                         {| this := AuthorizationCodeConnection.construct conn;
                            log := [] |}))).
Proof.
  intros conn fs dflt tza l.
  destruct (ac_run_requests conn fs dflt tza l
              {| this := AuthorizationCodeConnection.construct conn; log := [] |})
    as (new & E & Hlen & HP).
  rewrite E. cbn [log posted omap list_omap app]. split; [exact Hlen | exact HP].
Qed.

(** ** Expiration and errors *)

Lemma ac_parse_with_token_and_error (defaultexpiration : Z) (tza : Date.zone) (now : Z) (e : TransportError)
    (t : Token) (w : world AuthorizationCodeConnection.Instance) :
  truthy (access_token t) = true ->
  response e <> None ->
  AuthorizationCodeConnection.tokenExpiration
    (this (snd (AuthorizationCodeConnection.parseTokenResponse
                  defaultexpiration tza now (Some e) (Some t) w)))
  = AuthorizationCodeConnection.tokenExpiration
      (this (snd (AuthorizationCodeConnection.parseTokenResponse
                    defaultexpiration tza now None (Some t) w))).
Proof.
  intros Ht Hr. unfold AuthorizationCodeConnection.parseTokenResponse. rewrite Ht.
  destruct e as [sc [r|]]; [|contradiction]. cbn [negb]. exec.
  rewrite !ac_setTokenExpiration_eq. exec.
  cbn [AuthorizationCodeConnection.cb AuthorizationCodeConnection.set_tokenExpiration].
  destruct (AuthorizationCodeConnection.cb (this w)); reflexivity.
Qed.

(** X13: the handler does not stop at a transport error.  When the error
    comes with a token that has a usable access_token, the expiration is
    computed and stored exactly as on success, and the callback receives
    both the ConnectionException and the token. *)
Theorem X13_error_with_token_still_sets_expiration :
  forall (defaultexpiration : Z) (tza : Date.zone) (now : Z) (e : TransportError) (token : Token) (f : nat),
    truthy (access_token token) = true ->
    response e <> None ->
    (forall w,
       ClientCredentialsConnection.cb (this w) = Some f ->
       ClientCredentialsConnection.tokenExpiration
         (this (snd (ClientCredentialsConnection.parseTokenResponse
                       defaultexpiration tza now (Some e) (Some token) w)))
       = ClientCredentialsConnection.tokenExpiration
           (this (snd (ClientCredentialsConnection.parseTokenResponse
                         defaultexpiration tza now None (Some token) w)))
       /\ called (log (snd (ClientCredentialsConnection.parseTokenResponse
                              defaultexpiration tza now (Some e) (Some token) w)))
          = called (log w)
            ++ [(f,
                 ConnectionException
                   {| eo_statusCode := statusCode e;
                      oauthResponse := match response e with
                                       | Some r => body r
                                       | None => JUndefined
                                       end |},
                 TokenArg (Some token))])
    /\ (forall w,
          AuthorizationCodeConnection.cb (this w) = Some f ->
          AuthorizationCodeConnection.tokenExpiration
            (this (snd (AuthorizationCodeConnection.parseTokenResponse
                          defaultexpiration tza now (Some e) (Some token) w)))
          = AuthorizationCodeConnection.tokenExpiration
              (this (snd (AuthorizationCodeConnection.parseTokenResponse
                            defaultexpiration tza now None (Some token) w)))
          /\ called (log (snd (AuthorizationCodeConnection.parseTokenResponse
                                 defaultexpiration tza now (Some e) (Some token) w)))
             = called (log w)
               ++ [(f,
                    ConnectionException
                      {| eo_statusCode := statusCode e;
                         oauthResponse := match response e with
                                          | Some r => body r
                                          | None => JUndefined
                                          end |},
                    TokenArg (Some token))]).
Proof.
  intros dflt tza now e token f Ht Hr. split; intros w Hcb.
  - destruct (cc_parse_with_token dflt tza now (Some e) token w Ht) as [E1 _].
    destruct (cc_parse_with_token dflt tza now None token w Ht) as [E2 _].
    destruct (cc_parse_delivers dflt tza now (Some e) (Some token) w f Hcb) as (_ & D & _).
    split; [congruence | exact D].
  - split; [apply ac_parse_with_token_and_error; assumption|].
    destruct (ac_parse_delivers dflt tza now (Some e) (Some token) w f Hcb) as (_ & D & _).
    + intros e' [= <-]. exact Hr.
    + exact D.
Qed.

Lemma X13_error_with_token_still_sets_expiration_witness :
  AuthorizationCodeConnection.tokenExpiration
    (this (snd (AuthorizationCodeConnection.parseTokenResponse 3600 Date.utc Samples.clock
                  (Some Cases.err_500) (Some Samples.token_3600)
                  (Samples.ac_waiting Samples.conn_inline))))
  = Some (Num (Samples.clock + 1000 * 3600))
  /\ called (log (snd (AuthorizationCodeConnection.parseTokenResponse 3600 Date.utc Samples.clock
                         (Some Cases.err_500) (Some Samples.token_3600)
                         (Samples.ac_waiting Samples.conn_inline))))
     = [(7%nat,
         ConnectionException {| eo_statusCode := JNum 500; oauthResponse := JStr "upstream" |},
         TokenArg (Some Samples.token_3600))].
Proof.
  destruct (X13_error_with_token_still_sets_expiration 3600 Date.utc Samples.clock Cases.err_500
              Samples.token_3600 7 ltac:(reflexivity) ltac:(discriminate)) as [_ Hac].
  destruct (Hac (Samples.ac_waiting Samples.conn_inline) ltac:(reflexivity)) as [E D].
  rewrite E, D. split; reflexivity.
Defined.

(** X14: when the response omits expires_in, the authorization-code
    expiration is the default counted from the start of the current
    minute: on a host whose offset from UTC at that local time is the one
    in force now, and with values small enough for doubles to be exact, it
    falls short of [now + default] by the seconds already elapsed in the
    minute, which is less than 60. *)
Theorem X14_authorization_code_default_shortfall :
  forall (defaultexpiration : Z) (tza : Date.zone) (now : Z) (token : Token)
         (w : world AuthorizationCodeConnection.Instance),
    truthy (access_token token) = true ->
    expires_in token = None ->
    Z.abs now + 2 * Z.abs (tza now true) + 1000 * Z.abs defaultexpiration
    + 2 * Date.msPerDay <= 2 ^ 53 ->
    tza (now + tza now true
         + 1000 * (defaultexpiration - Date.SecFromTime (now + tza now true))) false
    = tza now true ->
    exists s,
      0 <= s < 60
      /\ Date.getSeconds tza (Date.newDate now) = Int s
      /\ AuthorizationCodeConnection.tokenExpiration
           (this (snd (AuthorizationCodeConnection.parseTokenResponse
                         defaultexpiration tza now None (Some token) w)))
         = Some (Date.TimeClip (Int (now + 1000 * defaultexpiration - 1000 * s))).
Proof.
  intros dflt tza now token w Ht He Hsafe Hzone.
  exists (Date.SecFromTime (now + tza now true)).
  pose proof (field_ranges (now + tza now true)) as (_ & _ & Rs & _).
  split; [exact Rs|]. split.
  - apply getSeconds_int. unfold Date.msPerDay in Hsafe. lia.
  - rewrite (ac_omitted_expires_in dflt tza now token w Ht He)
      by (rewrite Hzone; lia).
    rewrite Hzone. do 3 f_equal. lia.
Qed.

Lemma X14_authorization_code_default_shortfall_witness :
  exists s,
    0 <= s < 60
    /\ Date.getSeconds Date.utc (Date.newDate Samples.clock) = Int s
    /\ AuthorizationCodeConnection.tokenExpiration
         (this (snd (AuthorizationCodeConnection.parseTokenResponse 3600 Date.utc
                       Samples.clock None (Some Samples.token_no_expiry)
                       (Samples.ac_waiting Samples.conn_inline))))
       = Some (Date.TimeClip (Int (Samples.clock + 1000 * 3600 - 1000 * s))).
Proof.
  apply (X14_authorization_code_default_shortfall 3600 Date.utc Samples.clock
           Samples.token_no_expiry (Samples.ac_waiting Samples.conn_inline));
    try reflexivity.
  vm_compute. discriminate.
Defined.

(** ** A whole flow through the loader *)

(** X15: a client-credentials flow with a path configured, a loader that
    answers without error, TLS material that resolves and a response with a
    usable access_token does exactly this, in this order: debug message,
    one loader call, one request, one callback call with
    [(undefined, token)]; afterwards the certificates are stored and the
    callback is gone. *)
Theorem X15_client_credentials_flow :
  forall (conn : ADPAPIConnection) (fs : gmap string string)
         (defaultexpiration : Z) (tza : Date.zone) (now : Z) (f : nat) (err : jsval)
         (certs : option (gmap string string)) (token : Token) (a : AgentOptions)
         (w : world ClientCredentialsConnection.Instance),
    truthy_str (sslCertPath conn) || truthy_str (sslKeyPath conn) = true ->
    truthy err = false ->
    buildAgentOptions fs conn = Done a ->
    truthy (access_token token) = true ->
    log (ClientCredentialsRun.run conn fs defaultexpiration tza
           [ClientCredentialsRun.Connect (Some f);
            ClientCredentialsRun.ReadCertsCb err certs;
            ClientCredentialsRun.ParseTokenResponse now None (Some token)] w)
    = log w
      ++ [EvDebug (DbgInitializing (ClientCredentialsConnection.this_granttype (this w)));
          EvReadCerts (List.filter truthy_str [sslCertPath conn; sslKeyPath conn])
            ClientCredentialsCb;
          EvPost {| requestDesc := "Access Token Request";
                    url := tokenUrl conn;
                    payload :=
                      {| agentOptions := a; strictSSL := false;
                         auth := Some {| user := clientId conn; pass := clientSecret conn;
                                         sendImmediately := true |};
                         form := {[ "grant_type" :=
                                      ClientCredentialsConnection.this_granttype
                                        (this w) ]} |} |};
          EvCallback f NoError (TokenArg (Some token))]
    /\ ClientCredentialsConnection.cb
         (this (ClientCredentialsRun.run conn fs defaultexpiration tza
                  [ClientCredentialsRun.Connect (Some f);
                   ClientCredentialsRun.ReadCertsCb err certs;
                   ClientCredentialsRun.ParseTokenResponse now None (Some token)] w))
       = None
    /\ ClientCredentialsConnection.certs
         (this (ClientCredentialsRun.run conn fs defaultexpiration tza
                  [ClientCredentialsRun.Connect (Some f);
                   ClientCredentialsRun.ReadCertsCb err certs;
                   ClientCredentialsRun.ParseTokenResponse now None (Some token)] w))
       = certs.
Proof.
  intros conn fs dflt tza now f err certs token a w Hp Herr Ha Ht.
  pose proof (some_cert_path conn Hp) as Hlen.
  cbn [ClientCredentialsRun.run ClientCredentialsRun.invoke].
  unfold ClientCredentialsConnection.connect, ClientCredentialsConnection.getCerts.
  rewrite Hlen. exec.
  unfold ClientCredentialsConnection.readCertsCb. rewrite Herr. exec.
  rewrite cc_getAccessToken_eq, Ha. exec.
  unfold ClientCredentialsConnection.parseTokenResponse. rewrite Ht. cbn [negb]. exec.
  rewrite cc_setTokenExpiration_eq. exec.
  cbn [ClientCredentialsConnection.cb ClientCredentialsConnection.certs
       ClientCredentialsConnection.this_granttype
       ClientCredentialsConnection.set_cb ClientCredentialsConnection.set_certs
       ClientCredentialsConnection.set_tokenExpiration
       ClientCredentialsConnection.set_tokenExpirationMs].
  exec. rewrite <- !app_assoc. repeat split; reflexivity.
Qed.

Lemma X15_client_credentials_flow_witness :
  called (log (ClientCredentialsRun.run Samples.conn_files Samples.disk 3600 Date.utc
                 [ClientCredentialsRun.Connect (Some 7%nat);
                  ClientCredentialsRun.ReadCertsCb JUndefined (Some Samples.disk);
                  ClientCredentialsRun.ParseTokenResponse Samples.clock None
                    (Some Samples.token_3600)]
                 (Samples.cc_start Samples.conn_files)))
  = [(7%nat, NoError, TokenArg (Some Samples.token_3600))].
Proof.
  destruct (X15_client_credentials_flow Samples.conn_files Samples.disk 3600 Date.utc Samples.clock
              7 JUndefined (Some Samples.disk) Samples.token_3600
              (agentOptions Samples.cc_payload_files) (Samples.cc_start Samples.conn_files)
              ltac:(reflexivity) ltac:(reflexivity) ltac:(reflexivity) ltac:(reflexivity))
    as (E & _).
  rewrite E. reflexivity.
Defined.

Lemma pending_after_readCerts (l : list event) (m : debugmsg)
    (p : list (option string)) (k : loader_callback) :
  pending_loader_callback (l ++ [EvDebug m; EvReadCerts p k]) = Some k.
Proof.
  unfold pending_loader_callback. rewrite omap_app. cbn [omap list_omap].
  apply last_snoc.
Qed.

(** X16: an authorization-code refresh with a truthy refresh token, a path
    configured, a loader that answers without error by calling the
    function it was handed, and TLS material that resolves: debug message,
    one loader call, then one request whose form is the refresh form
    carrying the token given to [refresh], then the callback with the
    response; the callback stays stored. *)
Theorem X16_refresh_flow :
  forall (conn : ADPAPIConnection) (fs : gmap string string)
         (defaultexpiration : Z) (tza : Date.zone) (now : Z) (f : nat) (rt err : jsval)
         (certs : option (gmap string string)) (token : option Token) (a : AgentOptions)
         (w : world AuthorizationCodeConnection.Instance),
    truthy_str (sslCertPath conn) || truthy_str (sslKeyPath conn) = true ->
    truthy rt = true ->
    truthy err = false ->
    buildAgentOptions fs conn = Done a ->
    log (snd (AuthorizationCodeConnection.parseTokenResponse
                defaultexpiration tza now None token
                (snd (AuthorizationCodeRun.loaderAnswers conn fs err certs
                        (snd (AuthorizationCodeConnection.refresh conn fs rt (Some f) w))))))
    = log w
      ++ [EvDebug (DbgInitializingRefresh
                     (AuthorizationCodeConnection.this_granttype (this w)));
          EvReadCerts (List.filter truthy_str [sslCertPath conn; sslKeyPath conn])
            (AuthorizationCodeCb rt);
          EvPost {| requestDesc := "Authorization Code - Access Token Request";
                    url := tokenUrl conn;
                    payload :=
                      {| agentOptions := a; strictSSL := false; auth := None;
                         form := {[ "grant_type" := JStr "refresh_token";
                                    "refresh_token" := rt;
                                    "client_id" := clientId conn;
                                    "client_secret" := clientSecret conn;
                                    "scope" := JStr "openid profile api" ]} |} |}]
      ++ (if no_access_token token then [EvDebug DbgNoToken] else [])
      ++ [EvCallback f NoError (TokenArg token)]
    /\ AuthorizationCodeConnection.cb
         (this (snd (AuthorizationCodeConnection.parseTokenResponse
                       defaultexpiration tza now None token
                       (snd (AuthorizationCodeRun.loaderAnswers conn fs err certs
                               (snd (AuthorizationCodeConnection.refresh
                                       conn fs rt (Some f) w)))))))
       = Some f.
Proof.
  intros conn fs dflt tza now f rt err certs token a w Hp Hrt Herr Ha.
  pose proof (some_cert_path conn Hp) as Hlen.
  unfold AuthorizationCodeConnection.refresh, AuthorizationCodeConnection.getCerts.
  rewrite Hlen. exec.
  unfold AuthorizationCodeRun.loaderAnswers. cbn [log].
  rewrite <- app_assoc. cbn [app]. rewrite pending_after_readCerts.
  unfold AuthorizationCodeConnection.readCertsCb. rewrite Herr. exec.
  rewrite ac_getAccessToken_refresh by exact Hrt. rewrite Ha. exec.
  unfold AuthorizationCodeConnection.parseTokenResponse, no_access_token.
  destruct token as [t|]; [destruct (truthy (access_token t))|];
    cbn [negb]; exec; try rewrite ac_setTokenExpiration_eq; exec;
    cbn [AuthorizationCodeConnection.cb AuthorizationCodeConnection.set_cb
         AuthorizationCodeConnection.set_certs
         AuthorizationCodeConnection.set_tokenExpiration];
    exec; rewrite <- !app_assoc; split; reflexivity.
Qed.

Lemma X16_refresh_flow_witness :
  called (log (snd (AuthorizationCodeConnection.parseTokenResponse 3600 Date.utc
                      Samples.clock None (Some Samples.token_3600)
                      (snd (AuthorizationCodeRun.loaderAnswers Cases.conn_mixed
                              Samples.disk JUndefined None
                              (snd (AuthorizationCodeConnection.refresh Cases.conn_mixed
                                      Samples.disk (JStr "r1") (Some 7%nat)
                                      (Samples.ac_start Cases.conn_mixed))))))))
  = [(7%nat, NoError, TokenArg (Some Samples.token_3600))].
Proof.
  destruct (X16_refresh_flow Cases.conn_mixed Samples.disk 3600 Date.utc Samples.clock
              7 (JStr "r1") JUndefined None (Some Samples.token_3600)
              {| ca := [Inline "CERT PEM"]; key := Buffer "KEY ON DISK";
                 cert := Inline "CERT PEM" |}
              (Samples.ac_start Cases.conn_mixed)
              ltac:(reflexivity) ltac:(reflexivity) ltac:(reflexivity) ltac:(reflexivity))
    as (E & _).
  rewrite E. reflexivity.
Defined.

(** ** A refresh without a usable token *)

Lemma ac_getAccessToken_falsy (conn : ADPAPIConnection) (fs : gmap string string)
    (rt : jsval) (w : world AuthorizationCodeConnection.Instance) :
  truthy rt = false ->
  AuthorizationCodeConnection.getAccessToken conn fs rt w
  = AuthorizationCodeConnection.getAccessToken conn fs JUndefined w.
Proof.
  intros Hrt. rewrite (ac_getAccessToken_initial conn fs rt w Hrt).
  rewrite (ac_getAccessToken_initial conn fs JUndefined w) by reflexivity. reflexivity.
Qed.

(** X17: [refresh] with a falsy refresh token (undefined, null, an empty
    string, 0, false) is [connect] under another debug message: the same
    outcome, the same connection state, the same loader calls, requests and
    callback calls, and the loader's answer is then handled as for
    [connect]. *)
Theorem X17_falsy_refresh_is_connect :
  forall (conn : ADPAPIConnection) (fs : gmap string string) (rt : jsval),
    truthy rt = false ->
    (forall f w,
       fst (AuthorizationCodeConnection.refresh conn fs rt f w)
       = fst (AuthorizationCodeConnection.connect conn fs f w)
       /\ this (snd (AuthorizationCodeConnection.refresh conn fs rt f w))
          = this (snd (AuthorizationCodeConnection.connect conn fs f w))
       /\ loaded (log (snd (AuthorizationCodeConnection.refresh conn fs rt f w)))
          = loaded (log (snd (AuthorizationCodeConnection.connect conn fs f w)))
       /\ posted (log (snd (AuthorizationCodeConnection.refresh conn fs rt f w)))
          = posted (log (snd (AuthorizationCodeConnection.connect conn fs f w)))
       /\ called (log (snd (AuthorizationCodeConnection.refresh conn fs rt f w)))
          = called (log (snd (AuthorizationCodeConnection.connect conn fs f w))))
    /\ (forall err certs w,
          AuthorizationCodeConnection.readCertsCb conn fs rt err certs w
          = AuthorizationCodeConnection.readCertsCb conn fs JUndefined err certs w).
Proof.
  intros conn fs rt Hrt. split.
  - intros f w.
    unfold AuthorizationCodeConnection.refresh, AuthorizationCodeConnection.connect,
      AuthorizationCodeConnection.getCerts.
    exec. destruct (0 <? _).
    + exec. rewrite !loaded_app, !posted_app, !called_app.
      cbn [loaded posted called omap list_omap]. repeat split; reflexivity.
    + rewrite !(ac_getAccessToken_initial conn fs rt) by exact Hrt.
      rewrite !(ac_getAccessToken_initial conn fs JUndefined) by reflexivity.
      destruct (buildAgentOptions fs conn); cbn [fst snd this log];
        rewrite !loaded_app, !posted_app, !called_app;
        cbn [loaded posted called omap list_omap]; repeat split; reflexivity.
  - intros err certs w. unfold AuthorizationCodeConnection.readCertsCb.
    destruct (truthy err); [reflexivity|]. exec.
    apply ac_getAccessToken_falsy, Hrt.
Qed.

Lemma X17_falsy_refresh_is_connect_witness :
  posted (log (snd (AuthorizationCodeConnection.refresh Samples.conn_inline Samples.disk
                      JNull (Some 7%nat) (Samples.ac_start Samples.conn_inline))))
  = posted (log (snd (AuthorizationCodeConnection.connect Samples.conn_inline Samples.disk
                        (Some 7%nat) (Samples.ac_start Samples.conn_inline)))).
Proof.
  destruct (X17_falsy_refresh_is_connect Samples.conn_inline Samples.disk JNull
              ltac:(reflexivity)) as [H _].
  apply (H (Some 7%nat) (Samples.ac_start Samples.conn_inline)).
Defined.

(** ** A response with no callback stored *)

Lemma ac_parse_without_callback (defaultexpiration : Z) (tza : Date.zone) (now : Z)
    (err : option TransportError) (token : option Token)
    (w : world AuthorizationCodeConnection.Instance) :
  AuthorizationCodeConnection.cb (this w) = None ->
  fst (AuthorizationCodeConnection.parseTokenResponse defaultexpiration tza now err token w)
  = Thrown TypeError
  /\ called (log (snd (AuthorizationCodeConnection.parseTokenResponse
                         defaultexpiration tza now err token w)))
     = called (log w).
Proof.
  intros Hcb. unfold AuthorizationCodeConnection.parseTokenResponse.
  destruct err as [[sc [r|]]|], token as [t|];
    try destruct (truthy (access_token t));
    cbn [negb]; exec; try rewrite ac_setTokenExpiration_eq; exec;
    cbn [AuthorizationCodeConnection.cb AuthorizationCodeConnection.set_tokenExpiration];
    rewrite ?Hcb; exec; rewrite ?called_app; cbn [called omap list_omap];
    rewrite ?app_nil_r; split; reflexivity.
Qed.

(** X18: when no callback function is stored (none was given, or the
    client-credentials flow has already completed), the client-credentials
    handler handles a response quietly, while the authorization-code
    handler raises a TypeError, whatever the response is; neither calls
    anything. *)
Theorem X18_response_without_callback :
  forall (defaultexpiration : Z) (tza : Date.zone) (now : Z) (err : option TransportError)
         (token : option Token),
    (forall w,
       ClientCredentialsConnection.cb (this w) = None ->
       fst (ClientCredentialsConnection.parseTokenResponse
              defaultexpiration tza now err token w) = Done tt
       /\ called (log (snd (ClientCredentialsConnection.parseTokenResponse
                              defaultexpiration tza now err token w)))
          = called (log w))
    /\ (forall w,
          AuthorizationCodeConnection.cb (this w) = None ->
          fst (AuthorizationCodeConnection.parseTokenResponse
                 defaultexpiration tza now err token w) = Thrown TypeError
          /\ called (log (snd (AuthorizationCodeConnection.parseTokenResponse
                                 defaultexpiration tza now err token w)))
             = called (log w)).
Proof.
  intros dflt tza now err token. split; intros w Hcb.
  - apply cc_parse_without_callback, Hcb.
  - apply ac_parse_without_callback, Hcb.
Qed.

Lemma X18_response_without_callback_witness :
  fst (ClientCredentialsConnection.parseTokenResponse 3600 Date.utc Samples.clock None
         (Some Samples.token_3600) (Samples.cc_start Samples.conn_inline))
  = Done tt
  /\ fst (AuthorizationCodeConnection.parseTokenResponse 3600 Date.utc Samples.clock None
            (Some Samples.token_3600) (Samples.ac_start Samples.conn_inline))
     = Thrown TypeError.
Proof.
  destruct (X18_response_without_callback 3600 Date.utc Samples.clock None
              (Some Samples.token_3600)) as [Hcc Hac].
  split.
  - apply (Hcc (Samples.cc_start Samples.conn_inline)). reflexivity.
  - apply (Hac (Samples.ac_start Samples.conn_inline)). reflexivity.
Defined.
